(** * zerto-rpo: average Actual RPO of the VPGs of a Zerto Virtual Manager

    A shallow embedding of the two variants of the program, [src/main.go]
    and [src/unnamed/part_000], and the properties of its specification.

    The program is sequential Go: it reads a JSON configuration file, logs in
    with HTTP Basic authentication, queries the VPG list with the session
    token, and prints the quotient of the summed [ActualRPO] by the number of
    records.  Everything outside the two source files (the file system, the
    JSON decoder, URL validation and the remote server) is gathered in a
    [World] record that the program's functions take as a parameter; the
    effects of the program itself (requests issued, text written to standard
    output, fatal log messages, process exit, run-time panics) are threaded
    through a small monad. *)

From Stdlib Require Import ZArith QArith Lia Ascii String.
From stdpp Require Import base strings pretty list gmap.

Local Open Scope string_scope.
Local Open Scope Z_scope.

(** ** Go's predeclared types *)

(** A Go [error] is observed by the program only through its message (the
    [%v] verb); [None] stands for the nil error. *)
Definition error : Type := string.

(** Go's [int] on the 64-bit targets: two's complement, additions wrap
    around silently. *)
Definition intSize : Z := 64.
Definition minInt : Z := - 2 ^ (intSize - 1).
Definition maxInt : Z := 2 ^ (intSize - 1) - 1.

Definition int_wrap (z : Z) : Z :=
  (z + 2 ^ (intSize - 1)) mod 2 ^ intSize - 2 ^ (intSize - 1).

Definition is_int (z : Z) : Prop := minInt <= z <= maxInt.

(** [a + b] on [int]. *)
Definition int_add (a b : Z) : Z := int_wrap (a + b).

(** [a / b] on [int]: the quotient truncated toward zero; the run time
    panics when the divisor is zero ([None]). *)
Definition int_quo (a b : Z) : option Z :=
  if b =? 0 then None else Some (int_wrap (Z.quot a b)).

(** [len(s)] of a slice. *)
Definition len {A} (s : list A) : Z := Z.of_nat (length s).

(** The line feed that [fmt.Println] appends. *)
Definition LF : string := String "010"%char EmptyString.

(** The [%d] verb of package fmt, and [fmt.Sprint] of an [int]. *)
Definition fmt_d (n : Z) : string := pretty n.

(** ** encoding/base64 (standard alphabet, padded), used by [SetBasicAuth] *)

Module base64.

Definition encodeStd : string :=
  "ABCDEFGHIJKLMNOPQRSTUVWXYZabcdefghijklmnopqrstuvwxyz0123456789+/".

Definition digit (n : N) : ascii :=
  match String.get (N.to_nat n) encodeStd with
  | Some c => c
  | None => "="%char
  end.

Definition pad : ascii := "="%char.

Fixpoint encode (src : list N) : string :=
  match src with
  | [] => ""
  | [a] =>
      String (digit (N.shiftr a 2))
        (String (digit (N.land (N.shiftl a 4) 63))
           (String pad (String pad "")))
  | [a; b] =>
      String (digit (N.shiftr a 2))
        (String (digit (N.land (N.lor (N.shiftl a 4) (N.shiftr b 4)) 63))
           (String (digit (N.land (N.shiftl b 2) 63))
              (String pad "")))
  | a :: b :: c :: rest =>
      String (digit (N.shiftr a 2))
        (String (digit (N.land (N.lor (N.shiftl a 4) (N.shiftr b 4)) 63))
           (String (digit (N.land (N.lor (N.shiftl b 2) (N.shiftr c 6)) 63))
              (String (digit (N.land c 63)) (encode rest))))
  end.

Fixpoint bytes (s : string) : list N :=
  match s with
  | EmptyString => []
  | String c s' => N_of_ascii c :: bytes s'
  end.

Definition EncodeToString (s : string) : string := encode (bytes s).

End base64.

(** ** The types the program declares (identical in both files) *)

(** [type VPG struct { ActualRPO int }] *)
Record VPG : Type := { ActualRPO : Z }.

(** [type Config struct { Username string; Password string }] *)
Record Config : Type := { Username : string; Password : string }.

(** ** net/http *)

Module http.

Definition StatusOK : Z := 200.

(** [http.Header] is [map[string][]string].  [Get] and [Set] canonicalise
    the key; the one key the program uses, [X-Zerto-Session], is already
    in canonical form. *)
Abbreviation Header := (gmap string (list string)).

Definition Header_Get (h : Header) (key : string) : string :=
  match h !! key with
  | Some (v :: _) => v
  | _ => ""
  end.

Definition Header_Set (h : Header) (key value : string) : Header :=
  <[key := [value]]> h.

Record Request : Type :=
  { Method : string; URL : string; ReqHeader : Header }.

(** [Body] is what [io.ReadAll(resp.Body)] yields: the bytes read and the
    error, if any, that interrupted the read. *)
Record Response : Type :=
  { StatusCode : Z; RespHeader : Header; Body : string * option error }.

(** The fields of [http.Client] that [main] sets.  [Timeout] is a
    [time.Duration], in nanoseconds. *)
Record Client : Type :=
  { Timeout : Z; InsecureSkipVerify : bool }.

(** [req.SetBasicAuth(username, password)] *)
Definition SetBasicAuth (req : Request) (username password : string) : Request :=
  {| Method := Method req;
     URL := URL req;
     ReqHeader :=
       Header_Set (ReqHeader req) "Authorization"
         ("Basic " +:+ base64.EncodeToString (username +:+ ":" +:+ password)) |}.

(** [req.Header.Set(key, value)] *)
Definition SetHeader (req : Request) (key value : string) : Request :=
  {| Method := Method req;
     URL := URL req;
     ReqHeader := Header_Set (ReqHeader req) key value |}.

End http.

Definition time_Second : Z := 1000000000.

(** ** The environment *)

(** What the program obtains from outside its two source files.
    - [os_ReadFile name] is the result pair of [os.ReadFile].
    - [json_Unmarshal_Config data] and [json_Unmarshal_VPGs data] are the
      value that [json.Unmarshal] leaves in a zero [Config], respectively a
      nil [[]VPG], together with the error it returns.
    - [url_Parse url] is the error, if any, that makes [http.NewRequest]
      reject the URL.
    - [client_Do c history req] is the outcome of [c.Do(req)] after the
      requests of [history] (oldest first) have been issued: a response, or
      a transport error.  The history accounts for the state of the server
      and of the client's cookie jar. *)
Record World : Type :=
  { os_ReadFile : string -> string * option error;
    json_Unmarshal_Config : string -> Config * option error;
    json_Unmarshal_VPGs : string -> list VPG * option error;
    url_Parse : string -> option error;
    client_Do : http.Client -> list http.Request -> http.Request -> http.Response + error }.

(** ** The process monad *)

(** The observable state of the running process. *)
Record Proc : Type :=
  { requests : list http.Request;   (* requests handed to client.Do, oldest first *)
    stdout : string;                (* text written to standard output *)
    stderr : list string }.         (* messages of packages log and flag, oldest first *)

Definition Proc0 : Proc := {| requests := []; stdout := ""; stderr := [] |}.

(** How a computation ends: it returns a value, it ends the process with
    [os.Exit(code)], or it panics. *)
Inductive Outcome (A : Type) : Type :=
  | Returned (a : A) (p : Proc)
  | Exited (code : Z) (p : Proc)
  | Panicked (msg : string) (p : Proc).
Arguments Returned {A} a p.
Arguments Exited {A} code p.
Arguments Panicked {A} msg p.

Definition Go (A : Type) : Type := Proc -> Outcome A.

#[global] Instance Go_ret : MRet Go := fun A a p => Returned a p.

#[global] Instance Go_bind : MBind Go := fun A B f m p =>
  match m p with
  | Returned a p' => f a p'
  | Exited code p' => Exited code p'
  | Panicked msg p' => Panicked msg p'
  end.

Definition panic {A} (msg : string) : Go A := fun p => Panicked msg p.

(** Use of a pointer: a nil pointer faults. *)
Definition deref {A} (ptr : option A) : Go A :=
  match ptr with
  | Some a => mret a
  | None => panic "runtime error: invalid memory address or nil pointer dereference"
  end.

(** [a / b] as a statement of the program. *)
Definition divide (a b : Z) : Go Z :=
  match int_quo a b with
  | Some q => mret q
  | None => panic "runtime error: integer divide by zero"
  end.

Definition write_stdout (s : string) : Go unit := fun p =>
  Returned tt {| requests := requests p; stdout := stdout p +:+ s; stderr := stderr p |}.

(** [fmt.Printf("%d", n)] *)
Definition fmt_Printf_d (n : Z) : Go unit := write_stdout (fmt_d n).

(** [fmt.Println(s)] for a string and for an int *)
Definition fmt_Println (s : string) : Go unit := write_stdout (s +:+ LF).
Definition fmt_Println_int (n : Z) : Go unit := write_stdout (fmt_d n +:+ LF).

(** [log.Fatal(msg)] and [log.Fatalf]: the message goes to standard error
    (after the logger's time stamp, left out here) and the process exits
    with status 1. *)
Definition log_Fatal {A} (msg : string) : Go A := fun p =>
  Exited 1 {| requests := requests p; stdout := stdout p; stderr := stderr p ++ [msg] |}.

Section Library.

Context (w : World).

(** [http.NewRequest(method, url, nil)]: a nil request and an error when
    the URL does not parse. *)
Definition http_NewRequest (method url : string) : option http.Request * option error :=
  match url_Parse w url with
  | Some e => (None, Some e)
  | None => (Some {| http.Method := method; http.URL := url; http.ReqHeader := ∅ |}, None)
  end.

(** [client.Do(req)] *)
Definition Do (client : http.Client) (req : http.Request) : Go (http.Response + error) :=
  fun p =>
    Returned (client_Do w client (requests p) req)
      {| requests := requests p ++ [req]; stdout := stdout p; stderr := stderr p |}.

End Library.

(** The status with which the process ends: 0 when [main] returns, the
    argument of [os.Exit], or 2 after a panic. *)
Definition exit_status {A} (o : Outcome A) : Z :=
  match o with
  | Returned _ _ => 0
  | Exited code _ => code
  | Panicked _ _ => 2
  end.

Definition final {A} (o : Outcome A) : Proc :=
  match o with
  | Returned _ p | Exited _ p | Panicked _ p => p
  end.

(** The process runs [main] from the initial state. *)
Definition run {A} (m : Go A) : Outcome A := m Proc0.

(** ** Statements shared by the two files *)

(** [for _, vpg := range vpgs { totalRPO += vpg.ActualRPO }], from the
    current value of [totalRPO]. *)
Fixpoint range_add (vpgs : list VPG) (totalRPO : Z) : Z :=
  match vpgs with
  | [] => totalRPO
  | vpg :: rest => range_add rest (int_add totalRPO (ActualRPO vpg))
  end.

(** The command line once [flag.Parse] has returned: the value of each flag
    that was given.  (The exits of [flag.Parse] itself are modelled in
    section "Package flag" below.) *)
Record Flags : Type := { flag_server : option string; flag_config : option string }.

(** [flag.String(name, value, usage)] once parsed: the flag's value, or its
    default. *)
Definition flag_String (given : option string) (value : string) : string :=
  default value given.

(** ** src/main.go *)

Module MainGo.
Section Program.

Context (w : World).

Definition readConfig (configFile : string) : option Config * option error :=
  let '(bytes, err) := os_ReadFile w configFile in
  match err with
  | Some err => (None, Some err)
  | None =>
      let '(config, err) := json_Unmarshal_Config w bytes in
      match err with
      | Some err => (None, Some err)
      | None => (Some config, None)
      end
  end.

Definition loginToZerto (client : http.Client) (serverIP username password : string)
  : Go (string * option error) :=
  let loginURL := "https://" +:+ serverIP +:+ ":9669/v1/session/add" in
  let '(req, _) := http_NewRequest w "POST" loginURL in
  req ← deref req;
  let req := http.SetBasicAuth req username password in
  r ← Do w client req;
  match r with
  | inr err => mret ("", Some err)
  | inl resp =>
      if negb (http.StatusCode resp =? http.StatusOK) then
        mret ("", Some ("failed to login, status code: " +:+ fmt_d (http.StatusCode resp)))
      else
        let sessionToken := http.Header_Get (http.RespHeader resp) "X-Zerto-Session" in
        if String.eqb sessionToken "" then
          mret ("", Some "session token not found in headers")
        else
          mret (sessionToken, None)
  end.

Definition queryVPGs (client : http.Client) (serverIP sessionToken : string)
  : Go (option error) :=
  let apiURL := "https://" +:+ serverIP +:+ ":9669/v1/vpgs" in
  let '(req, _) := http_NewRequest w "GET" apiURL in
  req ← deref req;
  let req := http.SetHeader req "X-Zerto-Session" sessionToken in
  r ← Do w client req;
  match r with
  | inr err => mret (Some err)
  | inl resp =>
      let '(body, err) := http.Body resp in
      match err with
      | Some err => mret (Some err)
      | None =>
          let '(vpgs, err) := json_Unmarshal_VPGs w body in
          match err with
          | Some err => mret (Some ("error unmarshalling JSON: " +:+ err))
          | None =>
              let totalRPO := range_add vpgs 0 in
              if len vpgs >? 0 then
                averageRPO ← divide totalRPO (len vpgs);
                fmt_Printf_d averageRPO;;
                mret None
              else
                fmt_Println "No VPGs found.";;
                mret None
          end
      end
  end.

(** [main] from the statement after [flag.Parse()] on; the whole of
    [func main] is [main_go] below. *)
Definition main (args : Flags) : Go unit :=
  let serverIP := flag_String (flag_server args) "localhost" in
  let configFile := flag_String (flag_config args) "" in
  if String.eqb configFile "" then log_Fatal "Config file path is required"
  else
    let '(config, err) := readConfig configFile in
    match err with
    | Some err => log_Fatal ("Error reading config file: " +:+ err)
    | None =>
        let client :=
          {| http.Timeout := 10 * time_Second; http.InsecureSkipVerify := true |} in
        config ← deref config;
        '(sessionToken, err) ← loginToZerto client serverIP (Username config) (Password config);
        match err with
        | Some err => log_Fatal ("Error logging in to Zerto API: " +:+ err)
        | None =>
            err ← queryVPGs client serverIP sessionToken;
            match err with
            | Some err => log_Fatal ("Error querying VPGs: " +:+ err)
            | None => mret tt
            end
        end
    end.

End Program.
End MainGo.

(** ** src/unnamed/part_000 *)

Module Part000.

Definition defaultServerIP : string := "localhost".
Definition zertoAPIPort : Z := 9669.
Definition apiTimeout : Z := 10 * time_Second.

Section Program.

Context (w : World).

Definition readConfig (configFile : string) : option Config * option error :=
  let '(data, err) := os_ReadFile w configFile in
  match err with
  | Some err => (None, Some err)
  | None =>
      let '(config, err) := json_Unmarshal_Config w data in
      match err with
      | Some err => (None, Some err)
      | None => (Some config, None)
      end
  end.

Definition loginToZerto (client : http.Client) (serverIP username password : string)
  : Go (string * option error) :=
  let loginURL :=
    "https://" +:+ serverIP +:+ ":" +:+ fmt_d zertoAPIPort +:+ "/v1/session/add" in
  let '(req, _) := http_NewRequest w "POST" loginURL in
  req ← deref req;
  let req := http.SetBasicAuth req username password in
  r ← Do w client req;
  match r with
  | inr err => mret ("", Some err)
  | inl resp =>
      if negb (http.StatusCode resp =? http.StatusOK) then
        mret ("", Some ("failed to login, status code: " +:+ fmt_d (http.StatusCode resp)))
      else
        let sessionToken := http.Header_Get (http.RespHeader resp) "X-Zerto-Session" in
        if String.eqb sessionToken "" then
          mret ("", Some "session token not found in headers")
        else
          mret (sessionToken, None)
  end.

Definition queryVPGs (client : http.Client) (serverIP sessionToken : string)
  : Go (Z * option error) :=
  let apiURL := "https://" +:+ serverIP +:+ ":" +:+ fmt_d zertoAPIPort +:+ "/v1/vpgs" in
  let '(req, _) := http_NewRequest w "GET" apiURL in
  req ← deref req;
  let req := http.SetHeader req "X-Zerto-Session" sessionToken in
  r ← Do w client req;
  match r with
  | inr err => mret (0, Some err)
  | inl resp =>
      let '(body, err) := http.Body resp in
      match err with
      | Some err => mret (0, Some err)
      | None =>
          let '(vpgs, err) := json_Unmarshal_VPGs w body in
          match err with
          | Some err => mret (0, Some ("error unmarshalling JSON: " +:+ err))
          | None =>
              if len vpgs =? 0 then mret (0, None)
              else
                let totalRPO := range_add vpgs 0 in
                q ← divide totalRPO (len vpgs);
                mret (q, None)
          end
      end
  end.

(** [main] from the statement after [flag.Parse()] on; the whole of
    [func main] is [part_000] below. *)
Definition main (args : Flags) : Go unit :=
  let serverIP := flag_String (flag_server args) defaultServerIP in
  let configFile := flag_String (flag_config args) "" in
  if String.eqb configFile "" then log_Fatal "Config file path is required"
  else
    let '(config, err) := readConfig configFile in
    match err with
    | Some err => log_Fatal ("Error reading config file: " +:+ err)
    | None =>
        let client :=
          {| http.Timeout := apiTimeout; http.InsecureSkipVerify := true |} in
        config ← deref config;
        '(sessionToken, err) ← loginToZerto client serverIP (Username config) (Password config);
        match err with
        | Some err => log_Fatal ("Error logging in to Zerto API: " +:+ err)
        | None =>
            '(averageRPO, err) ← queryVPGs client serverIP sessionToken;
            match err with
            | Some err => log_Fatal ("Error querying VPGs: " +:+ err)
            | None => fmt_Println_int averageRPO
            end
        end
    end.

End Program.
End Part000.

(** ** Notions of the specification *)

(** The exact sum of the [ActualRPO] fields, in the integers. *)
Definition sumRPO (vpgs : list VPG) : Z :=
  foldr (fun vpg acc => ActualRPO vpg + acc) 0 vpgs.

(** The arithmetic mean of the [ActualRPO] fields of a non-empty list, in
    the rationals: the sum divided by the number of records. *)
Definition arithmetic_mean (vpgs : list VPG) : Q :=
  Qmake (sumRPO vpgs) (Pos.of_nat (length vpgs)).

(** The two URLs of the Zerto API that the program addresses. *)
Definition loginURL (serverIP : string) : string :=
  "https://" +:+ serverIP +:+ ":9669/v1/session/add".

Definition vpgsURL (serverIP : string) : string :=
  "https://" +:+ serverIP +:+ ":9669/v1/vpgs".

(** The request that [loginToZerto] builds. *)
Definition loginRequest (serverIP username password : string) : http.Request :=
  http.SetBasicAuth
    {| http.Method := "POST"; http.URL := loginURL serverIP; http.ReqHeader := ∅ |}
    username password.

(** The request that [queryVPGs] builds. *)
Definition vpgsRequest (serverIP sessionToken : string) : http.Request :=
  http.SetHeader
    {| http.Method := "GET"; http.URL := vpgsURL serverIP; http.ReqHeader := ∅ |}
    "X-Zerto-Session" sessionToken.

(** The state of the process once [req] has been handed to [client.Do]. *)
Definition sent (req : http.Request) (p : Proc) : Proc :=
  {| requests := requests p ++ [req]; stdout := stdout p; stderr := stderr p |}.

(** The state of the process once [s] has been written to standard output. *)
Definition printed (s : string) (p : Proc) : Proc :=
  {| requests := requests p; stdout := stdout p +:+ s; stderr := stderr p |}.

(** The state of the process once package log has reported [msg]. *)
Definition logged (msg : string) (p : Proc) : Proc :=
  {| requests := requests p; stdout := stdout p; stderr := stderr p ++ [msg] |}.

(** The client that [main] creates. *)
Definition theClient : http.Client :=
  {| http.Timeout := 10 * time_Second; http.InsecureSkipVerify := true |}.

(** ** The file system *)

(** What the file system holds under a name: nothing, or a file with its
    content and, when the process cannot read it (no permission, a
    directory), the error that [os.ReadFile] reports. *)
Inductive FileState : Type :=
  | Absent
  | Present (content : string) (denied : option error).

(** [os.ReadFile] over a file system. *)
Definition ReadFile_in (files : string -> FileState) (name : string)
  : string * option error :=
  match files name with
  | Absent => ("", Some ("open " +:+ name +:+ ": no such file or directory"))
  | Present _ (Some err) => ("", Some err)
  | Present content None => (content, None)
  end.

(** ** Package flag *)

Definition TAB : string := String "009"%char EmptyString.
Definition DQUOTE : string := String "034"%char EmptyString.

(** What [flag.Parse] makes of the arguments: the flags, a request for help
    ([ErrHelp]), or an error. *)
Inductive Parsed : Type :=
  | ParseOK (args : Flags)
  | ParseHelp
  | ParseFail (msg : string).

(** [name[0:i]] and [name[i+1:]] for the first [=] of [name], if any. *)
Fixpoint cut_at_equals (name : string) : string * option string :=
  match name with
  | EmptyString => ("", None)
  | String c rest =>
      if Ascii.eqb c "="%char then ("", Some rest)
      else let '(n, v) := cut_at_equals rest in (String c n, v)
  end.

(** The loop of [parseOne] that looks for the value; the [=] cannot be the
    first character. *)
Definition split_value (name : string) : string * option string :=
  match name with
  | EmptyString => ("", None)
  | String c rest => let '(n, v) := cut_at_equals rest in (String c n, v)
  end.

(** The flags that [main] defines, both of them string flags. *)
Definition flag_defined (name : string) : bool :=
  String.eqb name "server" || String.eqb name "config".

(** [flag.Value.Set(value)] on the flag [name]. *)
Definition set_flag (name value : string) (args : Flags) : Flags :=
  if String.eqb name "server" then
    {| flag_server := Some value; flag_config := flag_config args |}
  else if String.eqb name "config" then
    {| flag_server := flag_server args; flag_config := Some value |}
  else args.

(** [FlagSet.Parse]: [parseOne] repeated until the first argument that is
    not a flag, the terminator [--], or an error. *)
Fixpoint flag_Parse (arguments : list string) (args : Flags) : Parsed :=
  match arguments with
  | [] => ParseOK args
  | s :: rest =>
      match s with
      | String c0 (String c1 t) =>
          if negb (Ascii.eqb c0 "-"%char) then ParseOK args
          else if Ascii.eqb c1 "-"%char && String.eqb t "" then ParseOK args
          else
            let name := if Ascii.eqb c1 "-"%char then t else String c1 t in
            match name with
            | EmptyString => ParseFail ("bad flag syntax: " +:+ s)
            | String d _ =>
                if Ascii.eqb d "-"%char || Ascii.eqb d "="%char then
                  ParseFail ("bad flag syntax: " +:+ s)
                else
                  let '(name, value) := split_value name in
                  if negb (flag_defined name) then
                    if String.eqb name "help" || String.eqb name "h" then ParseHelp
                    else ParseFail ("flag provided but not defined: -" +:+ name)
                  else
                    match value with
                    | Some v => flag_Parse rest (set_flag name v args)
                    | None =>
                        match rest with
                        | [] => ParseFail ("flag needs an argument: -" +:+ name)
                        | v :: rest' => flag_Parse rest' (set_flag name v args)
                        end
                    end
            end
      | _ => ParseOK args
      end
  end.

(** What [flag.Usage] writes: the header and [PrintDefaults] for the two
    flags, in the order of their names. *)
Definition flag_usage (prog : string) : string :=
  "Usage of " +:+ prog +:+ ":" +:+ LF
  +:+ "  -config string" +:+ LF
  +:+ "    " +:+ TAB +:+ "Path to the config file" +:+ LF
  +:+ "  -server string" +:+ LF
  +:+ "    " +:+ TAB +:+ "ZVM server IP (default " +:+ DQUOTE +:+ "localhost" +:+ DQUOTE
  +:+ ")" +:+ LF.

Definition write_stderr (s : string) : Go unit := fun p => Returned tt (logged s p).

(** [os.Exit(code)] *)
Definition os_Exit {A} (code : Z) : Go A := fun p => Exited code p.

(** [flag.Parse()] on the command line of the process, with the error
    handling of [flag.CommandLine] ([ExitOnError]): a request for help
    writes the usage and exits with status 0, an error writes the message
    and the usage and exits with status 2. *)
Definition flag_Parse_or_exit (prog : string) (arguments : list string) : Go Flags :=
  match flag_Parse arguments {| flag_server := None; flag_config := None |} with
  | ParseOK args => mret args
  | ParseHelp => write_stderr (flag_usage prog);; os_Exit 0
  | ParseFail msg => write_stderr msg;; write_stderr (flag_usage prog);; os_Exit 2
  end.

(** The whole of [func main] in src/main.go, for a process started with
    [os.Args = prog :: arguments]. *)
Definition main_go (w : World) (prog : string) (arguments : list string) : Go unit :=
  args ← flag_Parse_or_exit prog arguments;
  MainGo.main w args.

(** The whole of [func main] in src/unnamed/part_000. *)
Definition part_000 (w : World) (prog : string) (arguments : list string) : Go unit :=
  args ← flag_Parse_or_exit prog arguments;
  Part000.main w args.

(** ** A concrete environment *)

(** One server, one configuration file, and a JSON decoder that knows the
    documents below; the two answers of the server are parameters. *)
Module Sample.

Definition quoted (s : string) : string :=
  String "034"%char (s +:+ String "034"%char "").

(** [{"username":"admin","password":"secret"}] *)
Definition configData : string :=
  "{" +:+ quoted "username" +:+ ":" +:+ quoted "admin" +:+ ","
      +:+ quoted "password" +:+ ":" +:+ quoted "secret" +:+ "}".

Definition config : Config := {| Username := "admin"; Password := "secret" |}.

Definition zeroConfig : Config := {| Username := ""; Password := "" |}.

Fixpoint join (sep : string) (l : list string) : string :=
  match l with
  | [] => ""
  | [s] => s
  | s :: rest => s +:+ sep +:+ join sep rest
  end.

(** [[{"ActualRPO":5},{"ActualRPO":15}]] for [[5; 15]] *)
Definition vpgsBody (rpos : list Z) : string :=
  "[" +:+ join "," (map (fun n => "{" +:+ quoted "ActualRPO" +:+ ":" +:+ fmt_d n +:+ "}") rpos)
      +:+ "]".

Definition vpgsOf (rpos : list Z) : list VPG := map Build_VPG rpos.

Definition known : list (list Z) :=
  [ []; [5; 15]; [5; 10]; [7]; [-5; -10]; [maxInt; 1]; [maxInt; maxInt] ].

Definition decodeVPGs (body : string) : list VPG * option error :=
  match List.find (fun rpos => String.eqb (vpgsBody rpos) body) known with
  | Some rpos => (vpgsOf rpos, None)
  | None => ([], Some "invalid character '<' looking for beginning of value")
  end.

Fixpoint has_space (s : string) : bool :=
  match s with
  | EmptyString => false
  | String c s' => Ascii.eqb c " "%char || has_space s'
  end.

Definition world (login query : http.Response + error) : World :=
  {| os_ReadFile name :=
       if String.eqb name "zerto.json" then (configData, None)
       else if String.eqb name "broken.json" then ("{", None)
       else ("", Some ("open " +:+ name +:+ ": no such file or directory"));
     json_Unmarshal_Config data :=
       if String.eqb data configData then (config, None)
       else (zeroConfig, Some "unexpected end of JSON input");
     json_Unmarshal_VPGs := decodeVPGs;
     url_Parse url :=
       if has_space url then Some "invalid character in host name" else None;
     client_Do _ history _ :=
       match history with
       | [] => login
       | _ :: _ => query
       end |}.

Definition args : Flags :=
  {| flag_server := Some "zvm.example.org"; flag_config := Some "zerto.json" |}.

(** A successful login answer carrying the token [token]. *)
Definition loginOK (token : string) : http.Response + error :=
  inl {| http.StatusCode := 200;
         http.RespHeader := {[ "X-Zerto-Session" := [token] ]};
         http.Body := ("", None) |}.

(** An answer to the query with the given status and records. *)
Definition vpgsAnswer (status : Z) (rpos : list Z) : http.Response + error :=
  inl {| http.StatusCode := status;
         http.RespHeader := ∅;
         http.Body := (vpgsBody rpos, None) |}.

(** A file system with four files: a good configuration, a truncated one,
    the empty JSON object, and a good configuration that the process may
    not open. *)
Definition files (name : string) : FileState :=
  if String.eqb name "zerto.json" then Present configData None
  else if String.eqb name "broken.json" then Present "{" None
  else if String.eqb name "empty.json" then Present "{}" None
  else if String.eqb name "locked.json" then
    Present configData (Some "open locked.json: permission denied")
  else Absent.

(** The environment over [files].  The decoder accepts the empty object, as
    [json.Unmarshal] does, and leaves the zero [Config]. *)
Definition fileWorld (login query : http.Response + error) : World :=
  {| os_ReadFile := ReadFile_in files;
     json_Unmarshal_Config data :=
       if String.eqb data configData then (config, None)
       else if String.eqb data "{}" then (zeroConfig, None)
       else (zeroConfig, Some "unexpected end of JSON input");
     json_Unmarshal_VPGs := decodeVPGs;
     url_Parse url :=
       if has_space url then Some "invalid character in host name" else None;
     client_Do _ history _ :=
       match history with
       | [] => login
       | _ :: _ => query
       end |}.

End Sample.

(** ** What [queryVPGs] does with the decoded records *)

(** The aggregation that ends [queryVPGs] in src/main.go, in closed form
    (see [MainGo_queryVPGs_run]). *)
Definition MainGo_aggregate (vpgs : list VPG) (p : Proc) : Outcome (option error) :=
  match vpgs with
  | [] => Returned None (printed ("No VPGs found." +:+ LF) p)
  | _ :: _ => Returned None (printed (fmt_d (Z.quot (range_add vpgs 0) (len vpgs))) p)
  end.

(** The aggregation that ends [queryVPGs] in src/unnamed/part_000, in closed
    form (see [Part000_queryVPGs_run]). *)
Definition Part000_aggregate (vpgs : list VPG) (p : Proc) : Outcome (Z * option error) :=
  match vpgs with
  | [] => Returned (0, None) p
  | _ :: _ => Returned (Z.quot (range_add vpgs 0) (len vpgs), None) p
  end.

(** ** The shape of [%d] *)

Definition is_digit_or_dash (c : ascii) : bool :=
  match String.index 0 (String c "") "0123456789-" with
  | Some _ => true
  | None => false
  end.

Fixpoint all_chars (f : ascii -> bool) (s : string) : bool :=
  match s with
  | EmptyString => true
  | String c s' => f c && all_chars f s'
  end.

(** ** The situations the properties speak of *)

(** The configuration file named on the command line was read and decoded
    into [config]. *)
Definition config_loaded (w : World) (args : Flags) (config : Config) : Prop :=
  exists configFile,
    flag_config args = Some configFile /\ configFile <> ""
    /\ MainGo.readConfig w configFile = (Some config, None).

(** The login POST was issued from state [p] and answered with [resp]. *)
Definition login_answered (w : World) (client : http.Client)
    (serverIP username password : string) (p : Proc) (resp : http.Response) : Prop :=
  url_Parse w (loginURL serverIP) = None
  /\ client_Do w client (requests p) (loginRequest serverIP username password) = inl resp.

(** The GET of the VPG list was issued from state [p] and answered with [resp]. *)
Definition query_answered (w : World) (client : http.Client)
    (serverIP sessionToken : string) (p : Proc) (resp : http.Response) : Prop :=
  url_Parse w (vpgsURL serverIP) = None
  /\ client_Do w client (requests p) (vpgsRequest serverIP sessionToken) = inl resp.

(** The body of [resp] was read in full and decodes to the records [vpgs]. *)
Definition decodes_to (w : World) (resp : http.Response) (vpgs : list VPG) : Prop :=
  exists body, http.Body resp = (body, None) /\ json_Unmarshal_VPGs w body = (vpgs, None).

(** The body of [resp] was read in full and the decoder rejects it with [err]. *)
Definition decode_fails (w : World) (resp : http.Response) (err : error) : Prop :=
  exists body partial,
    http.Body resp = (body, None) /\ json_Unmarshal_VPGs w body = (partial, Some err).

(** The quotient that both files compute for a non-empty list. *)
Definition averageRPO (vpgs : list VPG) : Z := Z.quot (range_add vpgs 0) (len vpgs).

(** The session header is missing from an answer when the header map has no
    entry for it, an entry without values, or an entry whose first value is
    the empty string. *)
Definition session_header_missing (resp : http.Response) : Prop :=
  http.RespHeader resp !! "X-Zerto-Session" = None
  \/ http.RespHeader resp !! "X-Zerto-Session" = Some []
  \/ exists rest, http.RespHeader resp !! "X-Zerto-Session" = Some ("" :: rest).

(** The configuration file cannot be read: [os.ReadFile] returns an error
    for it, whether the file is missing or exists and cannot be opened or
    read. *)
Definition config_unreadable (w : World) (configFile : string) : Prop :=
  snd (os_ReadFile w configFile) <> None.

(** The content of the configuration file is rejected: the file is read,
    and [json.Unmarshal] returns an error for its content. *)
Definition config_rejected (w : World) (configFile : string) : Prop :=
  snd (os_ReadFile w configFile) = None
  /\ snd (json_Unmarshal_Config w (fst (os_ReadFile w configFile))) <> None.

(** * Proofs *)

(** ** The library model on known values *)

Example base64_rfc7617 :
  base64.EncodeToString "Aladdin:open sesame" = "QWxhZGRpbjpvcGVuIHNlc2FtZQ==".
Proof. reflexivity. Qed.

Example base64_rfc4648 :
  base64.EncodeToString "f" = "Zg==" /\ base64.EncodeToString "fo" = "Zm8="
  /\ base64.EncodeToString "foo" = "Zm9v" /\ base64.EncodeToString "foob" = "Zm9vYg==".
Proof. repeat split. Qed.

(** ** Arithmetic of [int] *)

Lemma int_wrap_is_int z : is_int (int_wrap z).
Proof.
  unfold is_int, int_wrap, minInt, maxInt, intSize.
  pose proof (Z.mod_pos_bound (z + 2 ^ (64 - 1)) (2 ^ 64) ltac:(lia)).
  change (2 ^ 64) with (2 * 2 ^ (64 - 1)) in *. lia.
Qed.

Lemma int_wrap_id z : is_int z -> int_wrap z = z.
Proof.
  unfold is_int, int_wrap, minInt, maxInt, intSize. intros Hz.
  rewrite Z.mod_small; [lia|].
  change (2 ^ 64) with (2 * 2 ^ (64 - 1)). lia.
Qed.

Lemma int_wrap_add_l a b : int_wrap (int_wrap a + b) = int_wrap (a + b).
Proof.
  unfold int_wrap, intSize.
  replace ((a + 2 ^ (64 - 1)) mod 2 ^ 64 - 2 ^ (64 - 1) + b + 2 ^ (64 - 1))
    with ((a + 2 ^ (64 - 1)) mod 2 ^ 64 + b) by lia.
  rewrite Zplus_mod_idemp_l. f_equal. f_equal. lia.
Qed.

(** The loop computes the exact sum reduced to an [int]. *)
Lemma range_add_wrap vpgs totalRPO :
  is_int totalRPO -> range_add vpgs totalRPO = int_wrap (totalRPO + sumRPO vpgs).
Proof.
  revert totalRPO. induction vpgs as [|vpg rest IH]; intros t Ht; simpl.
  - rewrite Z.add_0_r. symmetry. by apply int_wrap_id.
  - rewrite IH by apply int_wrap_is_int. unfold int_add.
    rewrite int_wrap_add_l. f_equal. lia.
Qed.

Lemma range_add_is_int vpgs : is_int (range_add vpgs 0).
Proof.
  rewrite range_add_wrap; [apply int_wrap_is_int|].
  unfold is_int, minInt, maxInt, intSize. lia.
Qed.

Lemma range_add_exact vpgs : is_int (sumRPO vpgs) -> range_add vpgs 0 = sumRPO vpgs.
Proof.
  intros H. rewrite range_add_wrap.
  - by rewrite Z.add_0_l, int_wrap_id.
  - unfold is_int, minInt, maxInt, intSize. lia.
Qed.

Lemma quot_bounds_pos a n : 0 < n -> 0 <= a -> 0 <= Z.quot a n <= a.
Proof.
  intros Hn Ha. pose proof (Z.quot_rem' a n) as E.
  pose proof (Z.rem_bound_pos a n ltac:(lia) ltac:(lia)). nia.
Qed.

Lemma quot_bounds_neg a n : 0 < n -> a <= 0 -> a <= Z.quot a n <= 0.
Proof.
  intros Hn Ha. pose proof (quot_bounds_pos (- a) n Hn ltac:(lia)) as H.
  rewrite Z.quot_opp_l in H by lia. lia.
Qed.

Lemma quot_is_int a n : is_int a -> 0 < n -> is_int (Z.quot a n).
Proof.
  unfold is_int, minInt, maxInt, intSize. intros Ha Hn.
  destruct (Z.le_gt_cases 0 a) as [H0|H0].
  - pose proof (quot_bounds_pos a n Hn H0). lia.
  - pose proof (quot_bounds_neg a n Hn ltac:(lia)). lia.
Qed.

Lemma len_pos {A} (s : list A) : s <> [] -> 0 < len s.
Proof. destruct s; [done|]. unfold len. simpl length. lia. Qed.

(** Dividing an [int] by a positive length neither panics nor wraps. *)
Lemma int_quo_len a (n : Z) : is_int a -> 0 < n -> int_quo a n = Some (Z.quot a n).
Proof.
  intros Ha Hn. unfold int_quo.
  destruct (Z.eqb_spec n 0); [lia|].
  by rewrite int_wrap_id by by apply quot_is_int.
Qed.

(** ** Complete runs in the concrete environment *)

Example sample_main_go :
  run (MainGo.main (Sample.world (Sample.loginOK "t0k3n") (Sample.vpgsAnswer 200 [5; 15]))
         Sample.args)
  = Returned tt
      {| requests :=
           [ loginRequest "zvm.example.org" "admin" "secret";
             vpgsRequest "zvm.example.org" "t0k3n" ];
         stdout := "10";
         stderr := [] |}.
Proof. vm_compute. reflexivity. Qed.

Example sample_part_000 :
  run (Part000.main (Sample.world (Sample.loginOK "t0k3n") (Sample.vpgsAnswer 200 [5; 15]))
         Sample.args)
  = Returned tt
      {| requests :=
           [ loginRequest "zvm.example.org" "admin" "secret";
             vpgsRequest "zvm.example.org" "t0k3n" ];
         stdout := "10" +:+ LF;
         stderr := [] |}.
Proof. vm_compute. reflexivity. Qed.

(** A server name that makes the URL invalid: the error of
    [http.NewRequest] is dropped, the request is nil, and [SetBasicAuth]
    faults; the process ends with status 2 and has sent nothing. *)
Example sample_bad_server_name :
  let w := Sample.world (Sample.loginOK "t0k3n") (Sample.vpgsAnswer 200 [5; 15]) in
  let args := {| flag_server := Some "bad host"; flag_config := Some "zerto.json" |} in
  run (MainGo.main w args)
    = Panicked "runtime error: invalid memory address or nil pointer dereference" Proc0
  /\ run (Part000.main w args)
     = Panicked "runtime error: invalid memory address or nil pointer dereference" Proc0
  /\ exit_status (run (MainGo.main w args)) = 2.
Proof. repeat split. Qed.

(** Without [-server] the program addresses [localhost]; without [-config]
    it stops at once. *)
Example sample_default_flags :
  let w := Sample.world (Sample.loginOK "t0k3n") (Sample.vpgsAnswer 200 [7]) in
  requests (final (run (MainGo.main w {| flag_server := None; flag_config := Some "zerto.json" |})))
    = [ loginRequest "localhost" "admin" "secret"; vpgsRequest "localhost" "t0k3n" ]
  /\ run (MainGo.main w {| flag_server := None; flag_config := None |})
     = Exited 1 (logged "Config file path is required" Proc0).
Proof. split; vm_compute; reflexivity. Qed.

(** A sum that leaves the range of [int] wraps around before the division. *)
Example sample_overflow :
  let answer := Sample.vpgsAnswer 200 [maxInt; maxInt] in
  let w := Sample.world answer answer in
  Part000.queryVPGs w theClient "zvm" "t0k3n" Proc0
    = Returned (-1, None) (sent (vpgsRequest "zvm" "t0k3n") Proc0).
Proof. vm_compute. reflexivity. Qed.

(** ** The two files agree on [readConfig] and [loginToZerto] *)

Lemma Part000_readConfig_eq w configFile :
  Part000.readConfig w configFile = MainGo.readConfig w configFile.
Proof. reflexivity. Qed.

Lemma Part000_loginToZerto_eq w client serverIP username password :
  Part000.loginToZerto w client serverIP username password
  = MainGo.loginToZerto w client serverIP username password.
Proof. reflexivity. Qed.

(** ** Running the functions step by step *)

Ltac go_unfold :=
  cbv beta iota delta
    [mbind Go_bind mret Go_ret deref Do divide panic log_Fatal
     fmt_Printf_d fmt_Println fmt_Println_int write_stdout].

(** [loginToZerto] once its request has been built: it is handed to the
    client, and the outcome depends on the answer alone. *)
Lemma loginToZerto_run w client serverIP username password p :
  url_Parse w (loginURL serverIP) = None ->
  MainGo.loginToZerto w client serverIP username password p
  = let p' := sent (loginRequest serverIP username password) p in
    match client_Do w client (requests p) (loginRequest serverIP username password) with
    | inr err => Returned ("", Some err) p'
    | inl resp =>
        if negb (http.StatusCode resp =? 200) then
          Returned ("", Some ("failed to login, status code: " +:+ fmt_d (http.StatusCode resp))) p'
        else if String.eqb (http.Header_Get (http.RespHeader resp) "X-Zerto-Session") "" then
          Returned ("", Some "session token not found in headers") p'
        else
          Returned (http.Header_Get (http.RespHeader resp) "X-Zerto-Session", None) p'
    end.
Proof.
  intros Hurl. unfold MainGo.loginToZerto, http_NewRequest.
  fold (loginURL serverIP). rewrite Hurl. go_unfold.
  fold (loginRequest serverIP username password).
  destruct (client_Do w client (requests p) _) as [resp|err]; [|reflexivity].
  destruct (negb _); [reflexivity|].
  destruct (String.eqb _ _); reflexivity.
Qed.

(** When the URL is rejected, the dropped error leaves a nil request, and
    its first use faults before anything is sent. *)
Lemma loginToZerto_bad_url w client serverIP username password p e :
  url_Parse w (loginURL serverIP) = Some e ->
  MainGo.loginToZerto w client serverIP username password p
  = Panicked "runtime error: invalid memory address or nil pointer dereference" p.
Proof.
  intros Hurl. unfold MainGo.loginToZerto, http_NewRequest.
  fold (loginURL serverIP). rewrite Hurl. reflexivity.
Qed.

Lemma MainGo_queryVPGs_run w client serverIP sessionToken p :
  url_Parse w (vpgsURL serverIP) = None ->
  MainGo.queryVPGs w client serverIP sessionToken p
  = let p' := sent (vpgsRequest serverIP sessionToken) p in
    match client_Do w client (requests p) (vpgsRequest serverIP sessionToken) with
    | inr err => Returned (Some err) p'
    | inl resp =>
        match http.Body resp with
        | (_, Some err) => Returned (Some err) p'
        | (body, None) =>
            match json_Unmarshal_VPGs w body with
            | (_, Some err) => Returned (Some ("error unmarshalling JSON: " +:+ err)) p'
            | (vpgs, None) => MainGo_aggregate vpgs p'
            end
        end
    end.
Proof.
  intros Hurl. unfold MainGo.queryVPGs, http_NewRequest.
  fold (vpgsURL serverIP). rewrite Hurl. go_unfold.
  fold (vpgsRequest serverIP sessionToken).
  destruct (client_Do w client (requests p) _) as [resp|err]; [|reflexivity].
  destruct (http.Body resp) as [body [err|]]; [reflexivity|].
  destruct (json_Unmarshal_VPGs w body) as [vpgs [err|]]; [reflexivity|].
  destruct vpgs as [|vpg rest]; [reflexivity|].
  assert (Hlen : 0 < len (vpg :: rest)) by by apply len_pos.
  destruct (Z.gtb_spec (len (vpg :: rest)) 0) as [_|Hle]; [|lia].
  rewrite (int_quo_len _ _ (range_add_is_int _) Hlen). reflexivity.
Qed.

Lemma Part000_queryVPGs_run w client serverIP sessionToken p :
  url_Parse w (vpgsURL serverIP) = None ->
  Part000.queryVPGs w client serverIP sessionToken p
  = let p' := sent (vpgsRequest serverIP sessionToken) p in
    match client_Do w client (requests p) (vpgsRequest serverIP sessionToken) with
    | inr err => Returned (0, Some err) p'
    | inl resp =>
        match http.Body resp with
        | (_, Some err) => Returned (0, Some err) p'
        | (body, None) =>
            match json_Unmarshal_VPGs w body with
            | (_, Some err) => Returned (0, Some ("error unmarshalling JSON: " +:+ err)) p'
            | (vpgs, None) => Part000_aggregate vpgs p'
            end
        end
    end.
Proof.
  intros Hurl. unfold Part000.queryVPGs, http_NewRequest.
  change ("https://" +:+ serverIP +:+ ":" +:+ fmt_d Part000.zertoAPIPort +:+ "/v1/vpgs")
    with (vpgsURL serverIP).
  rewrite Hurl. go_unfold.
  fold (vpgsRequest serverIP sessionToken).
  destruct (client_Do w client (requests p) _) as [resp|err]; [|reflexivity].
  destruct (http.Body resp) as [body [err|]]; [reflexivity|].
  destruct (json_Unmarshal_VPGs w body) as [vpgs [err|]]; [reflexivity|].
  destruct vpgs as [|vpg rest]; [reflexivity|].
  assert (Hlen : 0 < len (vpg :: rest)) by by apply len_pos.
  destruct (Z.eqb_spec (len (vpg :: rest)) 0) as [H0|_]; [lia|].
  rewrite (int_quo_len _ _ (range_add_is_int _) Hlen). reflexivity.
Qed.

Lemma queryVPGs_bad_url w client serverIP sessionToken p e :
  url_Parse w (vpgsURL serverIP) = Some e ->
  MainGo.queryVPGs w client serverIP sessionToken p
  = Panicked "runtime error: invalid memory address or nil pointer dereference" p
  /\ Part000.queryVPGs w client serverIP sessionToken p
     = Panicked "runtime error: invalid memory address or nil pointer dereference" p.
Proof.
  intros Hurl. split.
  - unfold MainGo.queryVPGs, http_NewRequest.
    fold (vpgsURL serverIP). rewrite Hurl. reflexivity.
  - unfold Part000.queryVPGs, http_NewRequest.
    change ("https://" +:+ serverIP +:+ ":" +:+ fmt_d Part000.zertoAPIPort +:+ "/v1/vpgs")
      with (vpgsURL serverIP).
    rewrite Hurl. reflexivity.
Qed.

(** [readConfig] yields a configuration or an error, never both and never
    neither. *)
Lemma readConfig_cases w configFile :
  (exists config, MainGo.readConfig w configFile = (Some config, None))
  \/ (exists err, MainGo.readConfig w configFile = (None, Some err)).
Proof.
  unfold MainGo.readConfig.
  destruct (os_ReadFile w configFile) as [bytes [err|]]; [eauto|].
  destruct (json_Unmarshal_Config w bytes) as [config [err|]]; eauto.
Qed.

(** [main] up to the moment the configuration is loaded. *)
Lemma main_no_config_flag w args :
  flag_String (flag_config args) "" = "" ->
  run (MainGo.main w args) = Exited 1 (logged "Config file path is required" Proc0)
  /\ run (Part000.main w args) = Exited 1 (logged "Config file path is required" Proc0).
Proof.
  intros H. unfold run, MainGo.main, Part000.main. rewrite H. split; reflexivity.
Qed.

Lemma main_config_error w args configFile err :
  flag_config args = Some configFile ->
  MainGo.readConfig w configFile = (None, Some err) ->
  exists msg,
    run (MainGo.main w args) = Exited 1 (logged msg Proc0)
    /\ run (Part000.main w args) = Exited 1 (logged msg Proc0).
Proof.
  intros Hflag Hcfg.
  destruct (String.eqb_spec configFile "") as [->|Hne].
  - eexists. apply main_no_config_flag. by rewrite Hflag.
  - exists ("Error reading config file: " +:+ err).
    unfold run, MainGo.main, Part000.main. rewrite Hflag. change (flag_String (Some configFile) "") with configFile.
    destruct (String.eqb_spec configFile "") as [|_]; [done|].
    change (Part000.readConfig w configFile) with (MainGo.readConfig w configFile).
    rewrite Hcfg. split; reflexivity.
Qed.

(** [main] from the login on, in src/main.go. *)
Lemma MainGo_main_run w args configFile config :
  flag_config args = Some configFile -> configFile <> "" ->
  MainGo.readConfig w configFile = (Some config, None) ->
  run (MainGo.main w args)
  = match MainGo.loginToZerto w theClient (flag_String (flag_server args) "localhost")
            (Username config) (Password config) Proc0 with
    | Returned (_, Some err) p1 =>
        Exited 1 (logged ("Error logging in to Zerto API: " +:+ err) p1)
    | Returned (sessionToken, None) p1 =>
        match MainGo.queryVPGs w theClient (flag_String (flag_server args) "localhost")
                sessionToken p1 with
        | Returned (Some err) p2 => Exited 1 (logged ("Error querying VPGs: " +:+ err) p2)
        | Returned None p2 => Returned tt p2
        | Exited code p2 => Exited code p2
        | Panicked msg p2 => Panicked msg p2
        end
    | Exited code p1 => Exited code p1
    | Panicked msg p1 => Panicked msg p1
    end.
Proof.
  intros Hflag Hne Hcfg. unfold run, MainGo.main. rewrite Hflag. change (flag_String (Some configFile) "") with configFile.
  destruct (String.eqb_spec configFile "") as [|_]; [done|].
  rewrite Hcfg. go_unfold. fold theClient.
  destruct (MainGo.loginToZerto _ _ _ _ _ _) as [[tok [err|]] p1|code p1|msg p1];
    try reflexivity.
  destruct (MainGo.queryVPGs _ _ _ _ _) as [[err|] p2|code p2|msg p2]; reflexivity.
Qed.

(** [main] from the login on, in src/unnamed/part_000. *)
Lemma Part000_main_run w args configFile config :
  flag_config args = Some configFile -> configFile <> "" ->
  MainGo.readConfig w configFile = (Some config, None) ->
  run (Part000.main w args)
  = match MainGo.loginToZerto w theClient (flag_String (flag_server args) "localhost")
            (Username config) (Password config) Proc0 with
    | Returned (_, Some err) p1 =>
        Exited 1 (logged ("Error logging in to Zerto API: " +:+ err) p1)
    | Returned (sessionToken, None) p1 =>
        match Part000.queryVPGs w theClient (flag_String (flag_server args) "localhost")
                sessionToken p1 with
        | Returned (_, Some err) p2 => Exited 1 (logged ("Error querying VPGs: " +:+ err) p2)
        | Returned (averageRPO, None) p2 => Returned tt (printed (fmt_d averageRPO +:+ LF) p2)
        | Exited code p2 => Exited code p2
        | Panicked msg p2 => Panicked msg p2
        end
    | Exited code p1 => Exited code p1
    | Panicked msg p1 => Panicked msg p1
    end.
Proof.
  intros Hflag Hne Hcfg. unfold run, Part000.main. rewrite Hflag. change (flag_String (Some configFile) "") with configFile.
  destruct (String.eqb_spec configFile "") as [|_]; [done|].
  change (Part000.readConfig w configFile) with (MainGo.readConfig w configFile).
  rewrite Hcfg. go_unfold.
  change {| http.Timeout := Part000.apiTimeout; http.InsecureSkipVerify := true |}
    with theClient.
  change Part000.defaultServerIP with "localhost".
  change Part000.loginToZerto with MainGo.loginToZerto.
  destruct (MainGo.loginToZerto _ _ _ _ _ _) as [[tok [err|]] p1|code p1|msg p1];
    try reflexivity.
  destruct (Part000.queryVPGs _ _ _ _ _) as [[avg [err|]] p2|code p2|msg p2]; reflexivity.
Qed.

Lemma pretty_N_char_digit x : is_digit_or_dash (pretty_N_char x) = true.
Proof. unfold pretty_N_char. by repeat case_match. Qed.

Lemma pretty_N_go_digits x s :
  all_chars is_digit_or_dash s = true ->
  all_chars is_digit_or_dash (pretty_N_go x s) = true.
Proof.
  revert s. induction (N.lt_wf_0 x) as [x _ IH]; intros s Hs.
  destruct (N.eq_dec x 0%N) as [->|Hx].
  - by rewrite pretty_N_go_0.
  - rewrite pretty_N_go_step by lia. apply IH.
    + apply N.div_lt; lia.
    + simpl. by rewrite pretty_N_char_digit, Hs.
Qed.

Lemma pretty_N_digits (x : N) : all_chars is_digit_or_dash (pretty x) = true.
Proof.
  unfold pretty, pretty_N. case_decide; [done|]. by apply pretty_N_go_digits.
Qed.

(** [%d] writes decimal digits, after a minus sign for a negative number. *)
Lemma fmt_d_digits n : all_chars is_digit_or_dash (fmt_d n) = true.
Proof.
  unfold fmt_d, pretty, pretty_Z. destruct n as [|x|x]; [done| |].
  - apply pretty_N_digits.
  - change (all_chars is_digit_or_dash (String "-" (pretty (N.pos x))) = true).
    simpl. apply pretty_N_digits.
Qed.

(** A string with any other character is not the decimal form of a number. *)
Lemma not_fmt_d s n : all_chars is_digit_or_dash s = false -> s <> fmt_d n.
Proof. intros Hs ->. by rewrite fmt_d_digits in Hs. Qed.

Lemma append_LF_inj s t : s +:+ LF = t +:+ LF -> s = t.
Proof.
  revert t. induction s as [|c s IH]; intros [|d t] Heq; unfold LF in Heq; simpl in Heq.
  - done.
  - injection Heq as _ Heq. by destruct t.
  - injection Heq as _ Heq. by destruct s.
  - injection Heq as -> Heq. f_equal. by apply IH.
Qed.

(** The placeholder line is not the decimal form of any number, with or
    without a line feed. *)
Lemma placeholder_not_a_number n :
  "No VPGs found." +:+ LF <> fmt_d n /\ "No VPGs found." +:+ LF <> fmt_d n +:+ LF.
Proof.
  split; [by apply not_fmt_d|].
  intros H. apply append_LF_inj in H. revert H. by apply not_fmt_d.
Qed.

(** [queryVPGs] on an answer that decodes: the aggregation of the records,
    in either file. *)
Lemma queryVPGs_decoded w client serverIP sessionToken p resp vpgs :
  query_answered w client serverIP sessionToken p resp ->
  decodes_to w resp vpgs ->
  MainGo.queryVPGs w client serverIP sessionToken p
  = MainGo_aggregate vpgs (sent (vpgsRequest serverIP sessionToken) p)
  /\ Part000.queryVPGs w client serverIP sessionToken p
     = Part000_aggregate vpgs (sent (vpgsRequest serverIP sessionToken) p).
Proof.
  intros [Hurl HDo] (body & Hbody & Hjson).
  rewrite MainGo_queryVPGs_run, Part000_queryVPGs_run by done.
  cbv zeta. by rewrite HDo, Hbody, Hjson.
Qed.

Lemma queryVPGs_undecoded w client serverIP sessionToken p resp err :
  query_answered w client serverIP sessionToken p resp ->
  decode_fails w resp err ->
  MainGo.queryVPGs w client serverIP sessionToken p
  = Returned (Some ("error unmarshalling JSON: " +:+ err))
      (sent (vpgsRequest serverIP sessionToken) p)
  /\ Part000.queryVPGs w client serverIP sessionToken p
     = Returned (0, Some ("error unmarshalling JSON: " +:+ err))
         (sent (vpgsRequest serverIP sessionToken) p).
Proof.
  intros [Hurl HDo] (body & partial & Hbody & Hjson).
  rewrite MainGo_queryVPGs_run, Part000_queryVPGs_run by done.
  cbv zeta. by rewrite HDo, Hbody, Hjson.
Qed.

Lemma aggregate_nonempty vpgs p :
  vpgs <> [] ->
  MainGo_aggregate vpgs p = Returned None (printed (fmt_d (averageRPO vpgs)) p)
  /\ Part000_aggregate vpgs p = Returned (averageRPO vpgs, None) p.
Proof. destruct vpgs; [done|]. intros _. split; reflexivity. Qed.

(** A quotient of integers is the exact ratio precisely when the division
    leaves no remainder. *)
Lemma quot_is_ratio (s : Z) (n : positive) :
  (inject_Z (Z.quot s (Z.pos n)) == Qmake s n)%Q <-> (Z.pos n | s).
Proof.
  unfold Qeq. cbn [Qnum Qden inject_Z]. rewrite Z.mul_1_r.
  split.
  - intros H. exists (Z.quot s (Z.pos n)). symmetry. exact H.
  - intros [k Hk]. subst s. rewrite Z.quot_mul by done. reflexivity.
Qed.

Lemma len_as_positive {A} (s : list A) : s <> [] -> Z.pos (Pos.of_nat (length s)) = len s.
Proof.
  destruct s; [done|]. intros _. unfold len. simpl length.
  by rewrite <- Pos.of_nat_succ, Zpos_P_of_succ_nat, Nat2Z.inj_succ.
Qed.

(** * The properties of the specification *)

(** ** The average *)

(** C1, refuted as stated: the server answers with the records [{5}, {10}],
    whose arithmetic mean is 15/2; src/main.go prints [7] and
    src/unnamed/part_000 returns [7]. *)
Lemma queryVPGs_mean_counterexample :
  let answer := Sample.vpgsAnswer 200 [5; 10] in
  let w := Sample.world answer answer in
  let p' := sent (vpgsRequest "zvm" "t0k3n") Proc0 in
  json_Unmarshal_VPGs w (Sample.vpgsBody [5; 10])
    = ([ {| ActualRPO := 5 |}; {| ActualRPO := 10 |} ], None)
  /\ MainGo.queryVPGs w theClient "zvm" "t0k3n" Proc0 = Returned None (printed "7" p')
  /\ Part000.queryVPGs w theClient "zvm" "t0k3n" Proc0 = Returned (7, None) p'
  /\ (arithmetic_mean [ {| ActualRPO := 5 |}; {| ActualRPO := 10 |} ] == 15 # 2)%Q
  /\ ~ (inject_Z 7 == arithmetic_mean [ {| ActualRPO := 5 |}; {| ActualRPO := 10 |} ])%Q.
Proof.
  cbv zeta. split; [by vm_compute|]. split; [by vm_compute|]. split; [by vm_compute|].
  split; [reflexivity|]. intros H. vm_compute in H. discriminate H.
Qed.

(** C1, as amended: for every response body that decodes to a non-empty
    list of records, [queryVPGs] adds up the [ActualRPO] values as a Go
    [int] (the exact sum reduced to 64 bits) and outputs the integer
    quotient of that sum by the number of records, truncated toward zero:
    src/main.go prints it, src/unnamed/part_000 returns it.  When the exact
    sum fits an [int], the output is the arithmetic mean exactly when the
    number of records divides the sum. *)
Theorem queryVPGs_outputs_truncated_quotient
    w client serverIP sessionToken p resp vpgs :
  query_answered w client serverIP sessionToken p resp ->
  decodes_to w resp vpgs ->
  vpgs <> [] ->
  let total := int_wrap (sumRPO vpgs) in
  let p' := sent (vpgsRequest serverIP sessionToken) p in
  MainGo.queryVPGs w client serverIP sessionToken p
    = Returned None (printed (fmt_d (Z.quot total (len vpgs))) p')
  /\ Part000.queryVPGs w client serverIP sessionToken p
     = Returned (Z.quot total (len vpgs), None) p'
  /\ (is_int (sumRPO vpgs) ->
      total = sumRPO vpgs
      /\ ((inject_Z (Z.quot total (len vpgs)) == arithmetic_mean vpgs)%Q
          <-> (len vpgs | sumRPO vpgs))).
Proof.
  intros Hq Hd Hne. cbv zeta.
  destruct (queryVPGs_decoded _ _ _ _ _ _ _ Hq Hd) as [-> ->].
  destruct (aggregate_nonempty vpgs (sent (vpgsRequest serverIP sessionToken) p) Hne)
    as [-> ->].
  unfold averageRPO. rewrite range_add_wrap by (unfold is_int, minInt, maxInt, intSize; lia).
  rewrite Z.add_0_l. split; [done|]. split; [done|].
  intros Hfit. rewrite (int_wrap_id _ Hfit). split; [done|].
  unfold arithmetic_mean. rewrite <- (len_as_positive vpgs Hne). apply quot_is_ratio.
Qed.

Lemma queryVPGs_outputs_truncated_quotient_witness :
  let answer := Sample.vpgsAnswer 200 [-5; -10] in
  let w := Sample.world answer answer in
  MainGo.queryVPGs w theClient "zvm" "t0k3n" Proc0
    = Returned None (printed "-7" (sent (vpgsRequest "zvm" "t0k3n") Proc0))
  /\ Part000.queryVPGs w theClient "zvm" "t0k3n" Proc0
     = Returned (-7, None) (sent (vpgsRequest "zvm" "t0k3n") Proc0).
Proof.
  cbv zeta.
  pose proof (queryVPGs_outputs_truncated_quotient
    (Sample.world (Sample.vpgsAnswer 200 [-5; -10]) (Sample.vpgsAnswer 200 [-5; -10]))
    theClient "zvm" "t0k3n" Proc0
    {| http.StatusCode := 200; http.RespHeader := ∅;
       http.Body := (Sample.vpgsBody [-5; -10], None) |}
    (Sample.vpgsOf [-5; -10])) as H.
  cbv zeta in H.
  destruct H as (H1 & H2 & _).
  - split; reflexivity.
  - exists (Sample.vpgsBody [-5; -10]). split; [reflexivity|]. vm_compute. reflexivity.
  - discriminate.
  - split; [exact H1 | exact H2].
Defined.

(** C6: for the record list [{ActualRPO: 5}, {ActualRPO: 15}] the computed
    average is exactly 10: src/main.go prints [10], src/unnamed/part_000
    returns 10. *)
Theorem queryVPGs_average_5_15 w client serverIP sessionToken p resp :
  query_answered w client serverIP sessionToken p resp ->
  decodes_to w resp [ {| ActualRPO := 5 |}; {| ActualRPO := 15 |} ] ->
  let p' := sent (vpgsRequest serverIP sessionToken) p in
  MainGo.queryVPGs w client serverIP sessionToken p = Returned None (printed "10" p')
  /\ Part000.queryVPGs w client serverIP sessionToken p = Returned (10, None) p'
  /\ (inject_Z 10 == arithmetic_mean [ {| ActualRPO := 5 |}; {| ActualRPO := 15 |} ])%Q.
Proof.
  intros Hq Hd. cbv zeta.
  destruct (queryVPGs_decoded _ _ _ _ _ _ _ Hq Hd) as [-> ->].
  repeat split.
Qed.

Lemma queryVPGs_average_5_15_witness :
  let answer := Sample.vpgsAnswer 200 [5; 15] in
  let w := Sample.world answer answer in
  MainGo.queryVPGs w theClient "zvm" "t0k3n" Proc0
    = Returned None (printed "10" (sent (vpgsRequest "zvm" "t0k3n") Proc0))
  /\ Part000.queryVPGs w theClient "zvm" "t0k3n" Proc0
     = Returned (10, None) (sent (vpgsRequest "zvm" "t0k3n") Proc0).
Proof.
  cbv zeta.
  pose proof (queryVPGs_average_5_15
    (Sample.world (Sample.vpgsAnswer 200 [5; 15]) (Sample.vpgsAnswer 200 [5; 15]))
    theClient "zvm" "t0k3n" Proc0
    {| http.StatusCode := 200; http.RespHeader := ∅;
       http.Body := (Sample.vpgsBody [5; 15], None) |}) as H.
  cbv zeta in H.
  destruct H as (H1 & H2 & _).
  - split; reflexivity.
  - exists (Sample.vpgsBody [5; 15]). split; [reflexivity|]. vm_compute. reflexivity.
  - split; [exact H1 | exact H2].
Defined.

(** The only fault [queryVPGs] can raise is the nil request of a rejected
    URL; it never divides by zero. *)
Lemma queryVPGs_panics w client serverIP sessionToken p msg p' :
  MainGo.queryVPGs w client serverIP sessionToken p = Panicked msg p'
  \/ Part000.queryVPGs w client serverIP sessionToken p = Panicked msg p' ->
  msg = "runtime error: invalid memory address or nil pointer dereference"
  /\ url_Parse w (vpgsURL serverIP) <> None.
Proof.
  destruct (url_Parse w (vpgsURL serverIP)) as [e|] eqn:Hurl.
  - destruct (queryVPGs_bad_url w client serverIP sessionToken p e Hurl) as [-> ->].
    intros [H|H]; injection H as <- _; done.
  - rewrite MainGo_queryVPGs_run, Part000_queryVPGs_run by done. cbv zeta.
    destruct (client_Do w client (requests p) _) as [resp|err]; [|intros [?|?]; done].
    destruct (http.Body resp) as [body [err|]]; [intros [?|?]; done|].
    destruct (json_Unmarshal_VPGs w body) as [[|vpg rest] [err|]]; intros [?|?]; done.
Qed.

(** C2: if the decoded record list is empty, [queryVPGs] produces a fixed
    neutral result and no error: src/main.go prints the line
    [No VPGs found.] and returns nil, src/unnamed/part_000 returns 0 and
    nil.  Neither file ever panics on a division by zero, whatever the
    answer. *)
Theorem queryVPGs_empty_list_neutral w client serverIP sessionToken p :
  (forall resp,
     query_answered w client serverIP sessionToken p resp ->
     decodes_to w resp [] ->
     MainGo.queryVPGs w client serverIP sessionToken p
       = Returned None
           (printed ("No VPGs found." +:+ LF) (sent (vpgsRequest serverIP sessionToken) p))
     /\ Part000.queryVPGs w client serverIP sessionToken p
        = Returned (0, None) (sent (vpgsRequest serverIP sessionToken) p))
  /\ (forall p', MainGo.queryVPGs w client serverIP sessionToken p
                 <> Panicked "runtime error: integer divide by zero" p'
                 /\ Part000.queryVPGs w client serverIP sessionToken p
                    <> Panicked "runtime error: integer divide by zero" p').
Proof.
  split.
  - intros resp Hq Hd. exact (queryVPGs_decoded _ _ _ _ _ _ _ Hq Hd).
  - intros p'. split; intros H.
    + by destruct (queryVPGs_panics w client serverIP sessionToken p _ p' (or_introl H)).
    + by destruct (queryVPGs_panics w client serverIP sessionToken p _ p' (or_intror H)).
Qed.

Lemma queryVPGs_empty_list_neutral_witness :
  let answer := Sample.vpgsAnswer 200 [] in
  let w := Sample.world answer answer in
  MainGo.queryVPGs w theClient "zvm" "t0k3n" Proc0
    = Returned None
        (printed ("No VPGs found." +:+ LF) (sent (vpgsRequest "zvm" "t0k3n") Proc0))
  /\ Part000.queryVPGs w theClient "zvm" "t0k3n" Proc0
     = Returned (0, None) (sent (vpgsRequest "zvm" "t0k3n") Proc0).
Proof.
  cbv zeta.
  apply (proj1 (queryVPGs_empty_list_neutral
    (Sample.world (Sample.vpgsAnswer 200 []) (Sample.vpgsAnswer 200 []))
    theClient "zvm" "t0k3n" Proc0)
    {| http.StatusCode := 200; http.RespHeader := ∅;
       http.Body := (Sample.vpgsBody [], None) |}).
  - split; reflexivity.
  - exists (Sample.vpgsBody []). split; [reflexivity|]. vm_compute. reflexivity.
Defined.

(** Truncation toward zero: the magnitude of the quotient is the floor of
    the ratio of the magnitudes, and its sign is the sign of the dividend. *)
Lemma quot_truncates a n : 0 < n -> Z.quot a n = Z.sgn a * (Z.abs a / n).
Proof.
  intros Hn. destruct (Z.le_gt_cases 0 a) as [Ha|Ha].
  - rewrite Z.quot_div_nonneg by lia. rewrite Z.abs_eq by lia.
    destruct (Z.eq_dec a 0) as [->|Hne]; [done|].
    rewrite Z.sgn_pos by lia. lia.
  - rewrite Z.sgn_neg, Z.abs_neq by lia.
    rewrite <- (Z.opp_involutive a) at 1.
    rewrite Z.quot_opp_l by lia. rewrite Z.quot_div_nonneg by lia. lia.
Qed.

(** C8, refuted as stated: the server answers with the records
    [{maxInt}, {1}], both within the range of [int].  Their sum is 2^63 and
    its quotient by 2 is 2^62 = 4611686018427387904, but the running total
    wraps around to -2^63: src/main.go prints [-4611686018427387904] and
    src/unnamed/part_000 returns that number. *)
Lemma queryVPGs_quotient_of_sum_counterexample :
  let answer := Sample.vpgsAnswer 200 [maxInt; 1] in
  let w := Sample.world answer answer in
  let vpgs := [ {| ActualRPO := maxInt |}; {| ActualRPO := 1 |} ] in
  let p' := sent (vpgsRequest "zvm" "t0k3n") Proc0 in
  json_Unmarshal_VPGs w (Sample.vpgsBody [maxInt; 1]) = (vpgs, None)
  /\ is_int maxInt /\ is_int 1
  /\ MainGo.queryVPGs w theClient "zvm" "t0k3n" Proc0
     = Returned None (printed "-4611686018427387904" p')
  /\ Part000.queryVPGs w theClient "zvm" "t0k3n" Proc0
     = Returned (-4611686018427387904, None) p'
  /\ sumRPO vpgs = 9223372036854775808
  /\ Z.quot (sumRPO vpgs) (len vpgs) = 4611686018427387904
  /\ Z.quot (sumRPO vpgs) (len vpgs) <> -4611686018427387904.
Proof.
  cbv zeta. split; [by vm_compute|].
  split; [by vm_compute|]. split; [by vm_compute|].
  split; [by vm_compute|]. split; [by vm_compute|].
  split; [by vm_compute|]. split; [by vm_compute|]. by vm_compute.
Qed.

(** C8, as amended: for every non-empty record list the average is the Go
    integer quotient, truncated toward zero, of the loop's [totalRPO] by
    the record count, where [totalRPO] is the sum of the [ActualRPO] values
    computed in [int], that is the exact sum reduced to 64 bits, and equal
    to it whenever the exact sum fits an [int]; it is not the exact
    rational mean: src/main.go prints the quotient, src/unnamed/part_000
    returns it, and for the records [{5}, {10}] it is 7, which is not
    their mean. *)
Theorem queryVPGs_average_is_integer_quotient
    w client serverIP sessionToken p resp vpgs :
  query_answered w client serverIP sessionToken p resp ->
  decodes_to w resp vpgs ->
  vpgs <> [] ->
  let totalRPO := range_add vpgs 0 in
  let p' := sent (vpgsRequest serverIP sessionToken) p in
  MainGo.queryVPGs w client serverIP sessionToken p
    = Returned None (printed (fmt_d (Z.quot totalRPO (len vpgs))) p')
  /\ Part000.queryVPGs w client serverIP sessionToken p
     = Returned (Z.quot totalRPO (len vpgs), None) p'
  /\ totalRPO = int_wrap (sumRPO vpgs)
  /\ (is_int (sumRPO vpgs) ->
      totalRPO = sumRPO vpgs
      /\ Z.quot totalRPO (len vpgs) = Z.quot (sumRPO vpgs) (len vpgs))
  /\ Z.quot totalRPO (len vpgs) = Z.sgn totalRPO * (Z.abs totalRPO / len vpgs)
  /\ (vpgs = [ {| ActualRPO := 5 |}; {| ActualRPO := 10 |} ] ->
      Z.quot totalRPO (len vpgs) = 7
      /\ ~ (inject_Z (Z.quot totalRPO (len vpgs)) == arithmetic_mean vpgs)%Q).
Proof.
  intros Hq Hd Hne. cbv zeta.
  destruct (queryVPGs_decoded _ _ _ _ _ _ _ Hq Hd) as [-> ->].
  destruct (aggregate_nonempty vpgs (sent (vpgsRequest serverIP sessionToken) p) Hne)
    as [-> ->].
  unfold averageRPO. split; [done|]. split; [done|]. split.
  { rewrite range_add_wrap by (unfold is_int, minInt, maxInt, intSize; lia).
    by rewrite Z.add_0_l. }
  split.
  { intros Hfit. by rewrite (range_add_exact vpgs Hfit). }
  split.
  { apply quot_truncates. by apply len_pos. }
  intros ->. split; [reflexivity|]. intros H. vm_compute in H. discriminate H.
Qed.

Lemma queryVPGs_average_is_integer_quotient_witness :
  let answer := Sample.vpgsAnswer 200 [5; 10] in
  let w := Sample.world answer answer in
  MainGo.queryVPGs w theClient "zvm" "t0k3n" Proc0
    = Returned None (printed "7" (sent (vpgsRequest "zvm" "t0k3n") Proc0))
  /\ Part000.queryVPGs w theClient "zvm" "t0k3n" Proc0
     = Returned (7, None) (sent (vpgsRequest "zvm" "t0k3n") Proc0).
Proof.
  cbv zeta.
  pose proof (queryVPGs_average_is_integer_quotient
    (Sample.world (Sample.vpgsAnswer 200 [5; 10]) (Sample.vpgsAnswer 200 [5; 10]))
    theClient "zvm" "t0k3n" Proc0
    {| http.StatusCode := 200; http.RespHeader := ∅;
       http.Body := (Sample.vpgsBody [5; 10], None) |}
    (Sample.vpgsOf [5; 10])) as H.
  cbv zeta in H.
  destruct H as (H1 & H2 & _).
  - split; reflexivity.
  - exists (Sample.vpgsBody [5; 10]). split; [reflexivity|]. vm_compute. reflexivity.
  - discriminate.
  - split; [exact H1 | exact H2].
Defined.

(** ** The login *)

Lemma loginToZerto_not_ok w client serverIP username password p resp :
  login_answered w client serverIP username password p resp ->
  http.StatusCode resp <> 200 ->
  MainGo.loginToZerto w client serverIP username password p
  = Returned ("", Some ("failed to login, status code: " +:+ fmt_d (http.StatusCode resp)))
      (sent (loginRequest serverIP username password) p).
Proof.
  intros [Hurl HDo] Hstatus. rewrite loginToZerto_run by done. cbv zeta. rewrite HDo.
  by destruct (Z.eqb_spec (http.StatusCode resp) 200).
Qed.

Lemma loginToZerto_ok w client serverIP username password p resp :
  login_answered w client serverIP username password p resp ->
  http.StatusCode resp = 200 ->
  MainGo.loginToZerto w client serverIP username password p
  = let sessionToken := http.Header_Get (http.RespHeader resp) "X-Zerto-Session" in
    if String.eqb sessionToken "" then
      Returned ("", Some "session token not found in headers")
        (sent (loginRequest serverIP username password) p)
    else
      Returned (sessionToken, None) (sent (loginRequest serverIP username password) p).
Proof.
  intros [Hurl HDo] Hstatus. rewrite loginToZerto_run by done. cbv zeta. rewrite HDo.
  by destruct (Z.eqb_spec (http.StatusCode resp) 200).
Qed.

(** C3: if the login POST is answered with any status other than 200,
    [loginToZerto] returns the empty token and an error, and the program
    ends there, with exit status 1: the login request is the only request
    it has issued, so [queryVPGs] was never invoked, and nothing was
    printed. *)
Theorem login_non_200_is_fatal :
  (forall w client serverIP username password p resp,
     login_answered w client serverIP username password p resp ->
     http.StatusCode resp <> 200 ->
     let err := "failed to login, status code: " +:+ fmt_d (http.StatusCode resp) in
     let p' := sent (loginRequest serverIP username password) p in
     MainGo.loginToZerto w client serverIP username password p = Returned ("", Some err) p'
     /\ Part000.loginToZerto w client serverIP username password p
        = Returned ("", Some err) p')
  /\ (forall w args config resp,
        let serverIP := flag_String (flag_server args) "localhost" in
        let login := loginRequest serverIP (Username config) (Password config) in
        config_loaded w args config ->
        login_answered w theClient serverIP (Username config) (Password config) Proc0 resp ->
        http.StatusCode resp <> 200 ->
        let msg := "Error logging in to Zerto API: failed to login, status code: "
                   +:+ fmt_d (http.StatusCode resp) in
        let last := {| requests := [login]; stdout := ""; stderr := [msg] |} in
        run (MainGo.main w args) = Exited 1 last
        /\ run (Part000.main w args) = Exited 1 last
        /\ exit_status (run (MainGo.main w args)) = 1
        /\ exit_status (run (Part000.main w args)) = 1
        /\ ~ vpgsRequest serverIP "" ∈ requests last).
Proof.
  split.
  - intros w client serverIP username password p resp Hl Hs. cbv zeta.
    change Part000.loginToZerto with MainGo.loginToZerto.
    split; by apply loginToZerto_not_ok.
  - intros w args config resp serverIP login (configFile & Hflag & Hne & Hcfg) Hl Hs.
    cbv zeta.
    pose proof (loginToZerto_not_ok _ _ _ _ _ _ _ Hl Hs) as Hlogin.
    rewrite (MainGo_main_run w args configFile config Hflag Hne Hcfg).
    rewrite (Part000_main_run w args configFile config Hflag Hne Hcfg).
    fold serverIP. rewrite Hlogin.
    repeat split.
    cbn [requests]. intros Hin. apply list_elem_of_singleton in Hin.
    apply (f_equal http.Method) in Hin. discriminate Hin.
Qed.

Lemma login_non_200_is_fatal_witness :
  let unauthorized : http.Response + error :=
    inl {| http.StatusCode := 401; http.RespHeader := ∅; http.Body := ("", None) |} in
  let w := Sample.world unauthorized (Sample.vpgsAnswer 200 [5; 15]) in
  let last :=
    {| requests := [loginRequest "zvm.example.org" "admin" "secret"];
       stdout := "";
       stderr := ["Error logging in to Zerto API: failed to login, status code: 401"] |} in
  run (MainGo.main w Sample.args) = Exited 1 last
  /\ run (Part000.main w Sample.args) = Exited 1 last.
Proof.
  cbv zeta.
  pose proof (proj2 login_non_200_is_fatal
    (Sample.world
       (inl {| http.StatusCode := 401; http.RespHeader := ∅; http.Body := ("", None) |})
       (Sample.vpgsAnswer 200 [5; 15]))
    Sample.args Sample.config
    {| http.StatusCode := 401; http.RespHeader := ∅; http.Body := ("", None) |}) as H.
  cbv zeta in H.
  destruct H as (H1 & H2 & _).
  - exists "zerto.json". split; [reflexivity|]. split; [discriminate|reflexivity].
  - split; reflexivity.
  - discriminate.
  - split; [exact H1 | exact H2].
Defined.

Lemma session_header_missing_Get resp :
  session_header_missing resp
  <-> http.Header_Get (http.RespHeader resp) "X-Zerto-Session" = "".
Proof.
  unfold session_header_missing, http.Header_Get.
  destruct (http.RespHeader resp !! "X-Zerto-Session") as [[|v rest]|]; split;
    try done; eauto.
  - intros [?|[?|[rest' H]]]; try done. by injection H.
  - intros ->. eauto.
Qed.

(** C4: if the login POST is answered with status 200 but the
    [X-Zerto-Session] header is absent or empty, [loginToZerto] returns an
    error, and the empty string instead of a token. *)
Theorem login_without_session_header_fails
    w client serverIP username password p resp :
  login_answered w client serverIP username password p resp ->
  http.StatusCode resp = 200 ->
  session_header_missing resp ->
  let p' := sent (loginRequest serverIP username password) p in
  MainGo.loginToZerto w client serverIP username password p
    = Returned ("", Some "session token not found in headers") p'
  /\ Part000.loginToZerto w client serverIP username password p
     = Returned ("", Some "session token not found in headers") p'.
Proof.
  intros Hl Hs Hmiss. cbv zeta.
  change Part000.loginToZerto with MainGo.loginToZerto.
  rewrite (loginToZerto_ok _ _ _ _ _ _ _ Hl Hs). cbv zeta.
  apply session_header_missing_Get in Hmiss. rewrite Hmiss. by split.
Qed.

Lemma login_without_session_header_fails_witness :
  let bare : http.Response + error :=
    inl {| http.StatusCode := 200; http.RespHeader := ∅; http.Body := ("", None) |} in
  let w := Sample.world bare bare in
  MainGo.loginToZerto w theClient "zvm" "admin" "secret" Proc0
    = Returned ("", Some "session token not found in headers")
        (sent (loginRequest "zvm" "admin" "secret") Proc0)
  /\ Part000.loginToZerto w theClient "zvm" "admin" "secret" Proc0
     = Returned ("", Some "session token not found in headers")
         (sent (loginRequest "zvm" "admin" "secret") Proc0).
Proof.
  cbv zeta.
  apply (login_without_session_header_fails
    (Sample.world
       (inl {| http.StatusCode := 200; http.RespHeader := ∅; http.Body := ("", None) |})
       (inl {| http.StatusCode := 200; http.RespHeader := ∅; http.Body := ("", None) |}))
    theClient "zvm" "admin" "secret" Proc0
    {| http.StatusCode := 200; http.RespHeader := ∅; http.Body := ("", None) |}).
  - split; reflexivity.
  - reflexivity.
  - left. reflexivity.
Defined.

(** ** The configuration *)

Lemma readConfig_error_cases w configFile :
  snd (MainGo.readConfig w configFile) <> None
  <-> config_unreadable w configFile \/ config_rejected w configFile.
Proof.
  unfold MainGo.readConfig, config_unreadable, config_rejected.
  destruct (os_ReadFile w configFile) as [bytes [err|]]; cbn [fst snd].
  - split; [by left | done].
  - destruct (json_Unmarshal_Config w bytes) as [config [err|]]; cbn [fst snd].
    + split; [by right | done].
    + split; [done | intros [?|[_ ?]]; done].
Qed.

(** C5, refuted as stated, in both directions.  The file [locked.json]
    exists and holds a configuration that the decoder accepts, but the
    process may not open it: [readConfig] returns an error although the file
    is neither missing nor malformed.  The file [empty.json] holds the
    empty object, with neither a user name nor a password: [readConfig]
    returns no error but a [Config] with two empty strings, and [main] goes
    on to log in with them. *)
Lemma readConfig_missing_or_malformed_counterexample :
  let w := Sample.fileWorld (Sample.loginOK "t0k3n") (Sample.vpgsAnswer 200 [7]) in
  Sample.files "locked.json"
    = Present Sample.configData (Some "open locked.json: permission denied")
  /\ json_Unmarshal_Config w Sample.configData = (Sample.config, None)
  /\ MainGo.readConfig w "locked.json" = (None, Some "open locked.json: permission denied")
  /\ Part000.readConfig w "locked.json" = (None, Some "open locked.json: permission denied")
  /\ Sample.files "empty.json" = Present "{}" None
  /\ MainGo.readConfig w "empty.json" = (Some {| Username := ""; Password := "" |}, None)
  /\ Part000.readConfig w "empty.json" = (Some {| Username := ""; Password := "" |}, None)
  /\ run (MainGo.main w {| flag_server := None; flag_config := Some "empty.json" |})
     = Returned tt
         {| requests := [loginRequest "localhost" "" ""; vpgsRequest "localhost" "t0k3n"];
            stdout := "7";
            stderr := [] |}.
Proof. cbv zeta. repeat split; vm_compute; reflexivity. Qed.

(** C5, as amended: [readConfig] returns an error, and a nil [Config],
    exactly when [os.ReadFile] returns an error for the configuration file
    (as it does for a missing file, and for any other file that cannot be
    read) or [json.Unmarshal] returns an error for its content; otherwise
    it returns what [json.Unmarshal] decoded, whatever fields that carries,
    and no error.  When it returns an error the process exits with status
    1, before any request is issued. *)
Theorem readConfig_fails_iff_unreadable_or_rejected w configFile :
  (snd (MainGo.readConfig w configFile) <> None
   <-> config_unreadable w configFile \/ config_rejected w configFile)
  /\ (forall files,
        os_ReadFile w configFile = ReadFile_in files configFile ->
        files configFile = Absent ->
        config_unreadable w configFile)
  /\ (snd (MainGo.readConfig w configFile) <> None ->
      fst (MainGo.readConfig w configFile) = None)
  /\ (snd (MainGo.readConfig w configFile) = None ->
      fst (MainGo.readConfig w configFile)
      = Some (fst (json_Unmarshal_Config w (fst (os_ReadFile w configFile)))))
  /\ Part000.readConfig w configFile = MainGo.readConfig w configFile
  /\ (forall args,
        flag_config args = Some configFile ->
        snd (MainGo.readConfig w configFile) <> None ->
        exit_status (run (MainGo.main w args)) = 1
        /\ exit_status (run (Part000.main w args)) = 1
        /\ requests (final (run (MainGo.main w args))) = []
        /\ requests (final (run (Part000.main w args))) = []).
Proof.
  split; [apply readConfig_error_cases|].
  split; [|split; [|split; [|split; [reflexivity|]]]].
  - intros files Hfs Habs. unfold config_unreadable, ReadFile_in in *.
    rewrite Hfs, Habs. done.
  - destruct (readConfig_cases w configFile) as [[config ->]|[err ->]]; done.
  - unfold MainGo.readConfig.
    destruct (os_ReadFile w configFile) as [bytes [err|]]; cbn [fst snd]; [done|].
    destruct (json_Unmarshal_Config w bytes) as [config [err|]]; done.
  - intros args Hflag Herr.
    destruct (readConfig_cases w configFile) as [[config Hc]|[err Hc]].
    { by rewrite Hc in Herr. }
    destruct (main_config_error w args configFile err Hflag Hc) as (msg & -> & ->).
    by repeat split.
Qed.

Lemma readConfig_fails_iff_unreadable_or_rejected_witness :
  let w := Sample.fileWorld (Sample.loginOK "t0k3n") (Sample.vpgsAnswer 200 [5; 15]) in
  let args := {| flag_server := None; flag_config := Some "absent.json" |} in
  MainGo.readConfig w "absent.json"
    = (None, Some "open absent.json: no such file or directory")
  /\ exit_status (run (MainGo.main w args)) = 1
  /\ exit_status (run (Part000.main w args)) = 1.
Proof.
  cbv zeta. split; [reflexivity|].
  pose proof (readConfig_fails_iff_unreadable_or_rejected
    (Sample.fileWorld (Sample.loginOK "t0k3n") (Sample.vpgsAnswer 200 [5; 15]))
    "absent.json") as (Hiff & Habsent & _ & _ & _ & Hexit).
  destruct (Hexit {| flag_server := None; flag_config := Some "absent.json" |})
    as (H1 & H2 & _).
  - reflexivity.
  - apply Hiff. left. apply (Habsent Sample.files); reflexivity.
  - split; [exact H1 | exact H2].
Defined.

(** ** The session token *)

Lemma queryVPGs_requests w client serverIP sessionToken p :
  url_Parse w (vpgsURL serverIP) = None ->
  requests (final (MainGo.queryVPGs w client serverIP sessionToken p))
    = (requests p ++ [vpgsRequest serverIP sessionToken])%list
  /\ requests (final (Part000.queryVPGs w client serverIP sessionToken p))
     = (requests p ++ [vpgsRequest serverIP sessionToken])%list.
Proof.
  intros Hurl. rewrite MainGo_queryVPGs_run, Part000_queryVPGs_run by done. cbv zeta.
  destruct (client_Do w client (requests p) _) as [resp|err]; [|done].
  destruct (http.Body resp) as [body [err|]]; [done|].
  destruct (json_Unmarshal_VPGs w body) as [[|vpg rest] [err|]]; done.
Qed.

(** C7: the token that [loginToZerto] returns is attached unchanged as the
    [X-Zerto-Session] header of the GET of [/v1/vpgs]: for every token, the
    request that [queryVPGs] hands to the client is that GET with the
    header set to exactly the token, and in a run of [main] in which the
    login returns a token, the request issued next carries it. *)
Theorem queryVPGs_carries_the_token :
  (forall w client serverIP sessionToken p,
     url_Parse w (vpgsURL serverIP) = None ->
     let req := vpgsRequest serverIP sessionToken in
     requests (final (MainGo.queryVPGs w client serverIP sessionToken p))
       = (requests p ++ [req])%list
     /\ requests (final (Part000.queryVPGs w client serverIP sessionToken p))
        = (requests p ++ [req])%list
     /\ http.Method req = "GET"
     /\ http.URL req = "https://" +:+ serverIP +:+ ":9669/v1/vpgs"
     /\ http.ReqHeader req !! "X-Zerto-Session" = Some [sessionToken]
     /\ http.Header_Get (http.ReqHeader req) "X-Zerto-Session" = sessionToken)
  /\ (forall w args config sessionToken p1,
        let serverIP := flag_String (flag_server args) "localhost" in
        config_loaded w args config ->
        MainGo.loginToZerto w theClient serverIP (Username config) (Password config) Proc0
          = Returned (sessionToken, None) p1 ->
        url_Parse w (vpgsURL serverIP) = None ->
        requests (final (run (MainGo.main w args)))
          = (requests p1 ++ [vpgsRequest serverIP sessionToken])%list
        /\ requests (final (run (Part000.main w args)))
           = (requests p1 ++ [vpgsRequest serverIP sessionToken])%list).
Proof.
  split.
  - intros w client serverIP sessionToken p Hurl. cbv zeta.
    destruct (queryVPGs_requests w client serverIP sessionToken p Hurl) as [-> ->].
    do 4 (split; [reflexivity|]). split.
    + unfold vpgsRequest, http.SetHeader, http.Header_Set. cbn [http.ReqHeader].
      apply lookup_insert_eq.
    + unfold vpgsRequest, http.SetHeader, http.Header_Set, http.Header_Get.
      cbn [http.ReqHeader]. by rewrite lookup_insert_eq.
  - intros w args config sessionToken p1 serverIP (configFile & Hflag & Hne & Hcfg)
      Hlogin Hurl.
    rewrite (MainGo_main_run w args configFile config Hflag Hne Hcfg).
    rewrite (Part000_main_run w args configFile config Hflag Hne Hcfg).
    fold serverIP. rewrite Hlogin.
    destruct (queryVPGs_requests w theClient serverIP sessionToken p1 Hurl) as [HM HP].
    split.
    + rewrite <- HM.
      by destruct (MainGo.queryVPGs _ _ _ _ _) as [[err|] p2|code p2|msg p2].
    + rewrite <- HP.
      by destruct (Part000.queryVPGs _ _ _ _ _) as [[avg [err|]] p2|code p2|msg p2].
Qed.

Lemma queryVPGs_carries_the_token_witness :
  let w := Sample.world (Sample.loginOK "t0k3n") (Sample.vpgsAnswer 200 [5; 15]) in
  requests (final (run (MainGo.main w Sample.args)))
    = [ loginRequest "zvm.example.org" "admin" "secret";
        vpgsRequest "zvm.example.org" "t0k3n" ]
  /\ requests (final (run (Part000.main w Sample.args)))
     = [ loginRequest "zvm.example.org" "admin" "secret";
         vpgsRequest "zvm.example.org" "t0k3n" ].
Proof.
  cbv zeta.
  apply (proj2 queryVPGs_carries_the_token
    (Sample.world (Sample.loginOK "t0k3n") (Sample.vpgsAnswer 200 [5; 15]))
    Sample.args Sample.config "t0k3n"
    (sent (loginRequest "zvm.example.org" "admin" "secret") Proc0)).
  - exists "zerto.json". split; [reflexivity|]. split; [discriminate|reflexivity].
  - vm_compute. reflexivity.
  - reflexivity.
Defined.

(** ** The status of the answer to the query *)

(** C9, refuted as stated: the server answers the query with status 500 and
    the empty array, which decodes; src/main.go succeeds but produces no
    average: it prints the placeholder line, which is not a number. *)
Lemma queryVPGs_no_average_counterexample :
  let answer := Sample.vpgsAnswer 500 [] in
  let w := Sample.world answer answer in
  let p' := sent (vpgsRequest "zvm" "t0k3n") Proc0 in
  client_Do w theClient [] (vpgsRequest "zvm" "t0k3n") = answer
  /\ json_Unmarshal_VPGs w (Sample.vpgsBody []) = ([], None)
  /\ MainGo.queryVPGs w theClient "zvm" "t0k3n" Proc0
     = Returned None (printed ("No VPGs found." +:+ LF) p')
  /\ all_chars is_digit_or_dash (stdout (printed ("No VPGs found." +:+ LF) p')) = false.
Proof. cbv zeta. repeat split. Qed.

(** C9, as amended: [queryVPGs] never inspects the status code of the
    answer.  Whatever the status, when the body decodes the call succeeds,
    and it produces the average if the array is not empty (an empty array
    gives the placeholder line in src/main.go and 0 in
    src/unnamed/part_000); when the body does not decode the call returns
    an error. *)
Theorem queryVPGs_ignores_the_status
    w client serverIP sessionToken p status header body :
  query_answered w client serverIP sessionToken p
    {| http.StatusCode := status; http.RespHeader := header; http.Body := (body, None) |} ->
  let p' := sent (vpgsRequest serverIP sessionToken) p in
  (forall vpgs,
     json_Unmarshal_VPGs w body = (vpgs, None) ->
     (vpgs <> [] ->
      MainGo.queryVPGs w client serverIP sessionToken p
        = Returned None (printed (fmt_d (averageRPO vpgs)) p')
      /\ Part000.queryVPGs w client serverIP sessionToken p
         = Returned (averageRPO vpgs, None) p')
     /\ (vpgs = [] ->
         MainGo.queryVPGs w client serverIP sessionToken p
           = Returned None (printed ("No VPGs found." +:+ LF) p')
         /\ Part000.queryVPGs w client serverIP sessionToken p = Returned (0, None) p'))
  /\ (forall partial err,
        json_Unmarshal_VPGs w body = (partial, Some err) ->
        MainGo.queryVPGs w client serverIP sessionToken p
          = Returned (Some ("error unmarshalling JSON: " +:+ err)) p'
        /\ Part000.queryVPGs w client serverIP sessionToken p
           = Returned (0, Some ("error unmarshalling JSON: " +:+ err)) p').
Proof.
  intros Hq. cbv zeta. split.
  - intros vpgs Hjson.
    assert (Hd : decodes_to w
      {| http.StatusCode := status; http.RespHeader := header; http.Body := (body, None) |}
      vpgs) by by exists body.
    destruct (queryVPGs_decoded _ _ _ _ _ _ _ Hq Hd) as [-> ->]. split.
    + apply aggregate_nonempty.
    + intros ->. by split.
  - intros partial err Hjson.
    apply (queryVPGs_undecoded _ _ _ _ _ _ _ Hq). by exists body, partial.
Qed.

Lemma queryVPGs_ignores_the_status_witness :
  let failing := Sample.vpgsAnswer 500 [5; 15] in
  let w := Sample.world failing failing in
  MainGo.queryVPGs w theClient "zvm" "t0k3n" Proc0
    = Returned None (printed "10" (sent (vpgsRequest "zvm" "t0k3n") Proc0))
  /\ Part000.queryVPGs w theClient "zvm" "t0k3n" Proc0
     = Returned (10, None) (sent (vpgsRequest "zvm" "t0k3n") Proc0).
Proof.
  cbv zeta.
  pose proof (queryVPGs_ignores_the_status
    (Sample.world (Sample.vpgsAnswer 500 [5; 15]) (Sample.vpgsAnswer 500 [5; 15]))
    theClient "zvm" "t0k3n" Proc0 500 ∅ (Sample.vpgsBody [5; 15])) as H.
  cbv zeta in H. destruct H as [Hok _]; [split; reflexivity|].
  destruct (Hok (Sample.vpgsOf [5; 15])) as [Havg _]; [vm_compute; reflexivity|].
  destruct Havg as [H1 H2]; [discriminate|].
  split; [exact H1 | exact H2].
Defined.

(** ** The two files compared *)

(** [main] once the login has returned a token and the query has been
    answered with a body that decodes. *)
Lemma main_after_query w args config sessionToken p1 resp vpgs :
  config_loaded w args config ->
  MainGo.loginToZerto w theClient (flag_String (flag_server args) "localhost")
    (Username config) (Password config) Proc0
    = Returned (sessionToken, None) p1 ->
  query_answered w theClient (flag_String (flag_server args) "localhost") sessionToken p1 resp ->
  decodes_to w resp vpgs ->
  let p2 := sent (vpgsRequest (flag_String (flag_server args) "localhost") sessionToken) p1 in
  run (MainGo.main w args)
  = Returned tt
      (printed (match vpgs with
                | [] => "No VPGs found." +:+ LF
                | _ :: _ => fmt_d (averageRPO vpgs)
                end) p2)
  /\ run (Part000.main w args)
     = Returned tt
         (printed (match vpgs with
                   | [] => fmt_d 0 +:+ LF
                   | _ :: _ => fmt_d (averageRPO vpgs) +:+ LF
                   end) p2).
Proof.
  intros (configFile & Hflag & Hne & Hcfg) Hlogin Hq Hd. cbv zeta.
  rewrite (MainGo_main_run w args configFile config Hflag Hne Hcfg).
  rewrite (Part000_main_run w args configFile config Hflag Hne Hcfg).
  rewrite Hlogin.
  destruct (queryVPGs_decoded _ _ _ _ _ _ _ Hq Hd) as [-> ->].
  by destruct vpgs.
Qed.

(** C10: the two files agree on non-empty inputs and differ on the empty
    list.  For every response body that decodes to a non-empty record
    list, the number that [queryVPGs] prints in src/main.go is the number
    that [queryVPGs] returns in src/unnamed/part_000, which its [main]
    prints (followed by a line feed); for a body that decodes to the empty
    list, src/main.go prints the placeholder line and
    src/unnamed/part_000 prints 0, and these outputs differ. *)
Theorem main_go_and_part_000_agree_on_nonempty :
  (forall w client serverIP sessionToken p resp vpgs,
     query_answered w client serverIP sessionToken p resp ->
     decodes_to w resp vpgs ->
     let p' := sent (vpgsRequest serverIP sessionToken) p in
     (vpgs <> [] ->
      exists average : Z,
        MainGo.queryVPGs w client serverIP sessionToken p
          = Returned None (printed (fmt_d average) p')
        /\ Part000.queryVPGs w client serverIP sessionToken p = Returned (average, None) p')
     /\ (vpgs = [] ->
         MainGo.queryVPGs w client serverIP sessionToken p
           = Returned None (printed ("No VPGs found." +:+ LF) p')
         /\ Part000.queryVPGs w client serverIP sessionToken p = Returned (0, None) p'))
  /\ (forall w args config sessionToken p1 resp vpgs,
        let serverIP := flag_String (flag_server args) "localhost" in
        config_loaded w args config ->
        MainGo.loginToZerto w theClient serverIP (Username config) (Password config) Proc0
          = Returned (sessionToken, None) p1 ->
        query_answered w theClient serverIP sessionToken p1 resp ->
        decodes_to w resp vpgs ->
        let p2 := sent (vpgsRequest serverIP sessionToken) p1 in
        (vpgs <> [] ->
         exists average : Z,
           run (MainGo.main w args) = Returned tt (printed (fmt_d average) p2)
           /\ run (Part000.main w args) = Returned tt (printed (fmt_d average +:+ LF) p2))
        /\ (vpgs = [] ->
            run (MainGo.main w args) = Returned tt (printed ("No VPGs found." +:+ LF) p2)
            /\ run (Part000.main w args) = Returned tt (printed ("0" +:+ LF) p2)
            /\ stdout (final (run (MainGo.main w args)))
               <> stdout (final (run (Part000.main w args)))))
  /\ (forall n, "No VPGs found." +:+ LF <> fmt_d n +:+ LF).
Proof.
  assert (Hdiff : forall n, "No VPGs found." +:+ LF <> fmt_d n +:+ LF).
  { intros n. apply placeholder_not_a_number. }
  split; [|split; [|exact Hdiff]].
  - intros w client serverIP sessionToken p resp vpgs Hq Hd. cbv zeta.
    destruct (queryVPGs_decoded _ _ _ _ _ _ _ Hq Hd) as [-> ->]. split.
    + intros Hne. exists (averageRPO vpgs). by apply aggregate_nonempty.
    + intros ->. by split.
  - intros w args config sessionToken p1 resp vpgs serverIP Hc Hlogin Hq Hd. cbv zeta.
    destruct (main_after_query w args config sessionToken p1 resp vpgs Hc Hlogin Hq Hd)
      as [HM HP].
    cbv zeta in HM, HP. fold serverIP in HM, HP. rewrite HM, HP. split.
    + intros Hne. exists (averageRPO vpgs). by destruct vpgs.
    + intros ->. split; [done|]. split; [done|].
      cbn [final stdout printed]. intros Heq.
      apply (Hdiff 0). by apply (inj (String.app _)) in Heq.
Qed.

Lemma main_go_and_part_000_agree_on_nonempty_witness :
  let w := Sample.world (Sample.loginOK "t0k3n") (Sample.vpgsAnswer 200 [5; 15]) in
  let p2 :=
    sent (vpgsRequest "zvm.example.org" "t0k3n")
      (sent (loginRequest "zvm.example.org" "admin" "secret") Proc0) in
  exists average : Z,
    run (MainGo.main w Sample.args) = Returned tt (printed (fmt_d average) p2)
    /\ run (Part000.main w Sample.args) = Returned tt (printed (fmt_d average +:+ LF) p2).
Proof.
  cbv zeta.
  pose proof (proj1 (proj2 main_go_and_part_000_agree_on_nonempty)
    (Sample.world (Sample.loginOK "t0k3n") (Sample.vpgsAnswer 200 [5; 15]))
    Sample.args Sample.config "t0k3n"
    (sent (loginRequest "zvm.example.org" "admin" "secret") Proc0)
    {| http.StatusCode := 200; http.RespHeader := ∅;
       http.Body := (Sample.vpgsBody [5; 15], None) |}
    (Sample.vpgsOf [5; 15])) as H.
  cbv zeta in H.
  destruct H as [Hne _].
  - exists "zerto.json". split; [reflexivity|]. split; [discriminate|reflexivity].
  - vm_compute. reflexivity.
  - split; reflexivity.
  - exists (Sample.vpgsBody [5; 15]). split; [reflexivity|]. vm_compute. reflexivity.
  - apply Hne. discriminate.
Defined.


(** * Further properties of the code *)

(** ** Every way [main] can end *)

Lemma pretty_N_go_nonempty x s : s <> "" -> pretty_N_go x s <> "".
Proof.
  revert s. induction (N.lt_wf_0 x) as [x _ IH]; intros s Hs.
  destruct (N.eq_dec x 0%N) as [->|Hx].
  - by rewrite pretty_N_go_0.
  - rewrite pretty_N_go_step by lia. apply IH; [apply N.div_lt; lia | done].
Qed.

(** [%d] writes at least one character. *)
Lemma fmt_d_nonempty n : fmt_d n <> "".
Proof.
  unfold fmt_d, pretty, pretty_Z. destruct n as [|x|x]; [done| |done].
  unfold pretty, pretty_positive, pretty, pretty_N.
  case_decide; [done|]. rewrite pretty_N_go_step by lia. by apply pretty_N_go_nonempty.
Qed.

(** Either the configuration is loaded, or both files stop with one log
    message before doing anything else. *)
Lemma config_loaded_or_fatal w args :
  (exists config, config_loaded w args config)
  \/ (exists msg,
        run (MainGo.main w args) = Exited 1 (logged msg Proc0)
        /\ run (Part000.main w args) = Exited 1 (logged msg Proc0)).
Proof.
  destruct (flag_config args) as [configFile|] eqn:Hflag.
  - destruct (readConfig_cases w configFile) as [[config Hc]|[err Hc]].
    + destruct (String.eqb_spec configFile "") as [->|Hne].
      * right. eexists. apply main_no_config_flag. by rewrite Hflag.
      * left. exists config, configFile. done.
    + right. by apply (main_config_error w args configFile err).
  - right. eexists. apply main_no_config_flag. by rewrite Hflag.
Qed.

(** Once the configuration is loaded, the run of either file ends in one of
    six ways, the same in both files up to what is printed. *)
Lemma main_outcomes w args config :
  config_loaded w args config ->
  let serverIP := flag_String (flag_server args) "localhost" in
  let p1 := sent (loginRequest serverIP (Username config) (Password config)) Proc0 in
  let nilptr := "runtime error: invalid memory address or nil pointer dereference" in
  (url_Parse w (loginURL serverIP) <> None
   /\ run (MainGo.main w args) = Panicked nilptr Proc0
   /\ run (Part000.main w args) = Panicked nilptr Proc0)
  \/ (url_Parse w (loginURL serverIP) = None
      /\ exists msg,
           run (MainGo.main w args) = Exited 1 (logged msg p1)
           /\ run (Part000.main w args) = Exited 1 (logged msg p1))
  \/ (url_Parse w (loginURL serverIP) = None
      /\ exists sessionToken,
           sessionToken <> ""
           /\ MainGo.loginToZerto w theClient serverIP (Username config) (Password config)
                Proc0 = Returned (sessionToken, None) p1
           /\ let p2 := sent (vpgsRequest serverIP sessionToken) p1 in
              (url_Parse w (vpgsURL serverIP) <> None
               /\ run (MainGo.main w args) = Panicked nilptr p1
               /\ run (Part000.main w args) = Panicked nilptr p1)
              \/ (url_Parse w (vpgsURL serverIP) = None
                  /\ exists msg,
                       run (MainGo.main w args) = Exited 1 (logged msg p2)
                       /\ run (Part000.main w args) = Exited 1 (logged msg p2))
              \/ (url_Parse w (vpgsURL serverIP) = None
                  /\ run (MainGo.main w args)
                     = Returned tt (printed ("No VPGs found." +:+ LF) p2)
                  /\ run (Part000.main w args) = Returned tt (printed (fmt_d 0 +:+ LF) p2))
              \/ (url_Parse w (vpgsURL serverIP) = None
                  /\ exists n,
                       run (MainGo.main w args) = Returned tt (printed (fmt_d n) p2)
                       /\ run (Part000.main w args)
                          = Returned tt (printed (fmt_d n +:+ LF) p2))).
Proof.
  intros (configFile & Hflag & Hne & Hcfg) serverIP p1 nilptr.
  rewrite (MainGo_main_run w args configFile config Hflag Hne Hcfg).
  rewrite (Part000_main_run w args configFile config Hflag Hne Hcfg).
  fold serverIP.
  destruct (url_Parse w (loginURL serverIP)) as [e|] eqn:Hurl.
  { left. rewrite (loginToZerto_bad_url _ _ _ _ _ _ e Hurl). done. }
  right.
  pose proof (loginToZerto_run w theClient serverIP (Username config) (Password config)
                Proc0 Hurl) as Hrun.
  cbv zeta in Hrun. fold p1 in Hrun.
  destruct (client_Do w theClient (requests Proc0) _) as [resp|err].
  2:{ rewrite Hrun. left. split; [done|]. by eexists. }
  destruct (negb _).
  { rewrite Hrun. left. split; [done|]. by eexists. }
  destruct (String.eqb_spec (http.Header_Get (http.RespHeader resp) "X-Zerto-Session") "")
    as [Hempty|Htok].
  { rewrite Hrun. left. split; [done|]. by eexists. }
  right. split; [done|].
  exists (http.Header_Get (http.RespHeader resp) "X-Zerto-Session").
  split; [done|]. split; [done|]. rewrite Hrun. cbv zeta.
  set (sessionToken := http.Header_Get (http.RespHeader resp) "X-Zerto-Session").
  destruct (url_Parse w (vpgsURL serverIP)) as [e|] eqn:Hurl2.
  { left. destruct (queryVPGs_bad_url w theClient serverIP sessionToken p1 e Hurl2)
      as [-> ->]. done. }
  right.
  rewrite MainGo_queryVPGs_run, Part000_queryVPGs_run by done. cbv zeta.
  destruct (client_Do w theClient (requests p1) _) as [resp2|err].
  2:{ left. split; [done|]. by eexists. }
  destruct (http.Body resp2) as [body [err|]].
  { left. split; [done|]. by eexists. }
  destruct (json_Unmarshal_VPGs w body) as [vpgs [err|]].
  { left. split; [done|]. by eexists. }
  right. destruct vpgs as [|vpg rest].
  - left. done.
  - right. split; [done|]. by eexists.
Qed.

(** Once [flag.Parse] has returned, the process prints to standard output
    exactly when it ends with status 0; with status 1 exactly one message
    was logged, and otherwise none. *)
Lemma main_prints_iff_success w args :
  let oM := run (MainGo.main w args) in
  let oP := run (Part000.main w args) in
  (exit_status oM = 0 \/ exit_status oM = 1 \/ exit_status oM = 2)
  /\ (exit_status oP = 0 \/ exit_status oP = 1 \/ exit_status oP = 2)
  /\ (exit_status oM = 0 <-> stdout (final oM) <> "")
  /\ (exit_status oP = 0 <-> stdout (final oP) <> "")
  /\ (exit_status oM = 1 <-> exists msg, stderr (final oM) = [msg])
  /\ (exit_status oP = 1 <-> exists msg, stderr (final oP) = [msg])
  /\ (exit_status oM <> 1 -> stderr (final oM) = [])
  /\ (exit_status oP <> 1 -> stderr (final oP) = []).
Proof.
  cbv zeta.
  assert (Hnum : forall n, "" +:+ fmt_d n <> "") by (intros n; apply fmt_d_nonempty).
  assert (Hnl : forall n, "" +:+ (fmt_d n +:+ LF) <> "").
  { intros n. simpl. by destruct (fmt_d n). }
  destruct (config_loaded_or_fatal w args) as [[config Hc]|(msg & -> & ->)].
  2:{ cbn. repeat split; try done; eauto. }
  destruct (main_outcomes w args config Hc)
    as [(_ & -> & ->)
       |[(_ & msg & -> & ->)
        |(_ & tok & _ & _ & [(_ & -> & ->)
                            |[(_ & msg & -> & ->)
                             |[(_ & -> & ->)|(_ & n & -> & ->)]]])]];
    cbn; repeat split; try done; eauto; try (intros [? ?]; done);
    try (intros _; apply Hnum); try (intros _; apply Hnl).
Qed.


(** Once [flag.Parse] has returned, and when the server name gives URLs
    that [http.NewRequest] accepts, neither file panics. *)
Lemma main_never_panics_on_valid_urls w args :
  url_Parse w (loginURL (flag_String (flag_server args) "localhost")) = None ->
  url_Parse w (vpgsURL (flag_String (flag_server args) "localhost")) = None ->
  (exit_status (run (MainGo.main w args)) = 0 \/ exit_status (run (MainGo.main w args)) = 1)
  /\ (exit_status (run (Part000.main w args)) = 0
      \/ exit_status (run (Part000.main w args)) = 1)
  /\ (forall msg p, run (MainGo.main w args) <> Panicked msg p)
  /\ (forall msg p, run (Part000.main w args) <> Panicked msg p).
Proof.
  intros Hurl1 Hurl2.
  destruct (config_loaded_or_fatal w args) as [[config Hc]|(msg & -> & ->)].
  2:{ cbn. repeat split; auto; done. }
  destruct (main_outcomes w args config Hc)
    as [(Hbad & _)
       |[(_ & msg & -> & ->)
        |(_ & tok & _ & _ & [(Hbad & _)
                            |[(_ & msg & -> & ->)
                             |[(_ & -> & ->)|(_ & n & -> & ->)]]])]];
    try done; cbn; repeat split; auto; done.
Qed.

(** X4: a server name that makes the login URL invalid crashes the program.
    The error of [http.NewRequest] is discarded, so the nil request is
    dereferenced by [SetBasicAuth]: both files panic, the process ends with
    status 2, and nothing has been sent, printed or logged.  The same
    happens inside [queryVPGs] when its URL is rejected. *)
Theorem rejected_url_panics :
  (forall w args config e,
     config_loaded w args config ->
     url_Parse w (loginURL (flag_String (flag_server args) "localhost")) = Some e ->
     run (MainGo.main w args)
       = Panicked "runtime error: invalid memory address or nil pointer dereference" Proc0
     /\ run (Part000.main w args)
        = Panicked "runtime error: invalid memory address or nil pointer dereference" Proc0
     /\ exit_status (run (MainGo.main w args)) = 2
     /\ exit_status (run (Part000.main w args)) = 2)
  /\ (forall w client serverIP sessionToken p e,
        url_Parse w (vpgsURL serverIP) = Some e ->
        MainGo.queryVPGs w client serverIP sessionToken p
          = Panicked "runtime error: invalid memory address or nil pointer dereference" p
        /\ Part000.queryVPGs w client serverIP sessionToken p
           = Panicked "runtime error: invalid memory address or nil pointer dereference" p).
Proof.
  split.
  - intros w args config e (configFile & Hflag & Hne & Hcfg) Hurl.
    rewrite (MainGo_main_run w args configFile config Hflag Hne Hcfg).
    rewrite (Part000_main_run w args configFile config Hflag Hne Hcfg).
    rewrite (loginToZerto_bad_url _ _ _ _ _ _ e Hurl). done.
  - intros w client serverIP sessionToken p e Hurl. by apply (queryVPGs_bad_url _ _ _ _ _ e).
Qed.

Lemma rejected_url_panics_witness :
  let w := Sample.world (Sample.loginOK "t0k3n") (Sample.vpgsAnswer 200 [7]) in
  let args := {| flag_server := Some "bad host"; flag_config := Some "zerto.json" |} in
  exit_status (run (MainGo.main w args)) = 2 /\ exit_status (run (Part000.main w args)) = 2.
Proof.
  cbv zeta.
  destruct (proj1 rejected_url_panics
    (Sample.world (Sample.loginOK "t0k3n") (Sample.vpgsAnswer 200 [7]))
    {| flag_server := Some "bad host"; flag_config := Some "zerto.json" |}
    Sample.config "invalid character in host name") as (_ & _ & H1 & H2).
  - exists "zerto.json". split; [reflexivity|]. split; [discriminate|reflexivity].
  - reflexivity.
  - split; [exact H1 | exact H2].
Defined.

(** ** The requests *)

(** X5: [main] issues at most two requests, in a fixed order.  In either
    file the requests handed to the client are none, or the login POST
    alone, or the login POST followed by the GET of the VPG list; the GET is
    issued only after [loginToZerto] has returned a non-empty token without
    error, and it carries that token. *)
Theorem main_request_sequence w args :
  let serverIP := flag_String (flag_server args) "localhost" in
  (requests (final (run (MainGo.main w args))) = []
   /\ requests (final (run (Part000.main w args))) = [])
  \/ (exists config,
        config_loaded w args config
        /\ requests (final (run (MainGo.main w args)))
           = [loginRequest serverIP (Username config) (Password config)]
        /\ requests (final (run (Part000.main w args)))
           = [loginRequest serverIP (Username config) (Password config)])
  \/ (exists config sessionToken p1,
        config_loaded w args config
        /\ sessionToken <> ""
        /\ MainGo.loginToZerto w theClient serverIP (Username config) (Password config)
             Proc0 = Returned (sessionToken, None) p1
        /\ requests (final (run (MainGo.main w args)))
           = [loginRequest serverIP (Username config) (Password config);
              vpgsRequest serverIP sessionToken]
        /\ requests (final (run (Part000.main w args)))
           = [loginRequest serverIP (Username config) (Password config);
              vpgsRequest serverIP sessionToken]).
Proof.
  cbv zeta.
  destruct (config_loaded_or_fatal w args) as [[config Hc]|(msg & -> & ->)].
  2:{ by left. }
  destruct (main_outcomes w args config Hc)
    as [(_ & -> & ->)
       |[(_ & msg & -> & ->)
        |(_ & tok & Htok & Hlogin & [(_ & -> & ->)
                                    |[(_ & msg & -> & ->)
                                     |[(_ & -> & ->)|(_ & n & -> & ->)]]])]].
  - by left.
  - right. left. by exists config.
  - right. left. by exists config.
  - right. right. by eexists config, tok, _.
  - right. right. by eexists config, tok, _.
  - right. right. by eexists config, tok, _.
Qed.

Lemma loginToZerto_requests w client serverIP username password p :
  url_Parse w (loginURL serverIP) = None ->
  requests (final (MainGo.loginToZerto w client serverIP username password p))
  = (requests p ++ [loginRequest serverIP username password])%list.
Proof.
  intros Hurl. rewrite loginToZerto_run by done. cbv zeta.
  destruct (client_Do w client (requests p) _) as [resp|err]; [|done].
  destruct (negb _); [done|]. by destruct (String.eqb _ _).
Qed.

(** X6: the login request.  Whatever the answer, [loginToZerto] hands
    exactly one request to the client: a POST to
    [https://<server>:9669/v1/session/add] whose only header is
    [Authorization], with the value [Basic] followed by the base64 encoding
    of [username:password]. *)
Theorem loginToZerto_sends_basic_auth w client serverIP username password p :
  url_Parse w (loginURL serverIP) = None ->
  exists req,
    requests (final (MainGo.loginToZerto w client serverIP username password p))
      = (requests p ++ [req])%list
    /\ requests (final (Part000.loginToZerto w client serverIP username password p))
       = (requests p ++ [req])%list
    /\ http.Method req = "POST"
    /\ http.URL req = "https://" +:+ serverIP +:+ ":9669/v1/session/add"
    /\ http.ReqHeader req
       = {[ "Authorization" :=
              ["Basic " +:+ base64.EncodeToString (username +:+ ":" +:+ password)] ]}.
Proof.
  intros Hurl. exists (loginRequest serverIP username password).
  change Part000.loginToZerto with MainGo.loginToZerto.
  rewrite (loginToZerto_requests w client serverIP username password p Hurl).
  do 4 (split; [reflexivity|]).
  unfold loginRequest, http.SetBasicAuth, http.Header_Set. cbn [http.ReqHeader].
  apply insert_empty.
Qed.

Lemma loginToZerto_sends_basic_auth_witness :
  let w := Sample.world (Sample.loginOK "t0k3n") (Sample.vpgsAnswer 200 [7]) in
  exists req,
    requests (final (MainGo.loginToZerto w theClient "zvm" "Aladdin" "open sesame" Proc0))
      = [req]
    /\ http.ReqHeader req = {[ "Authorization" := ["Basic QWxhZGRpbjpvcGVuIHNlc2FtZQ=="] ]}.
Proof.
  cbv zeta.
  destruct (loginToZerto_sends_basic_auth
    (Sample.world (Sample.loginOK "t0k3n") (Sample.vpgsAnswer 200 [7]))
    theClient "zvm" "Aladdin" "open sesame" Proc0) as (req & H1 & _ & _ & _ & H2).
  - reflexivity.
  - exists req. split; [exact H1 | exact H2].
Defined.

(** ** The result of [loginToZerto] *)

(** X7: [loginToZerto] returns a token or an error, never both and never
    neither: whenever it returns, the error is nil exactly when the token
    is not the empty string, and a returned token comes with an error-free
    state in which exactly the login request has been added. *)
Theorem loginToZerto_token_xor_error
    w client serverIP username password p sessionToken err p' :
  MainGo.loginToZerto w client serverIP username password p
    = Returned (sessionToken, err) p'
  \/ Part000.loginToZerto w client serverIP username password p
     = Returned (sessionToken, err) p' ->
  (err = None <-> sessionToken <> "")
  /\ p' = sent (loginRequest serverIP username password) p.
Proof.
  change Part000.loginToZerto with MainGo.loginToZerto. intros H.
  assert (H' : MainGo.loginToZerto w client serverIP username password p
               = Returned (sessionToken, err) p') by by destruct H.
  clear H. revert H'.
  destruct (url_Parse w (loginURL serverIP)) as [e|] eqn:Hurl.
  { by rewrite (loginToZerto_bad_url _ _ _ _ _ _ e Hurl). }
  rewrite loginToZerto_run by done. cbv zeta.
  destruct (client_Do w client (requests p) _) as [resp|e].
  2:{ intros [= <- <- <-]. done. }
  destruct (negb _).
  { intros [= <- <- <-]. done. }
  destruct (String.eqb_spec (http.Header_Get (http.RespHeader resp) "X-Zerto-Session") "")
    as [Hempty|Htok]; intros [= <- <- <-]; done.
Qed.

Lemma loginToZerto_token_xor_error_witness :
  let w := Sample.world (Sample.loginOK "t0k3n") (Sample.vpgsAnswer 200 [7]) in
  (@None error = None <-> "t0k3n" <> "")
  /\ sent (loginRequest "zvm" "admin" "secret") Proc0
     = sent (loginRequest "zvm" "admin" "secret") Proc0.
Proof.
  cbv zeta.
  apply (loginToZerto_token_xor_error
    (Sample.world (Sample.loginOK "t0k3n") (Sample.vpgsAnswer 200 [7]))
    theClient "zvm" "admin" "secret" Proc0 "t0k3n" None
    (sent (loginRequest "zvm" "admin" "secret") Proc0)).
  left. vm_compute. reflexivity.
Defined.

(** X8: a transport error of the login POST is returned unchanged, and is
    fatal: [loginToZerto] returns the empty token and the very error of
    [client.Do], and [main] logs it after [Error logging in to Zerto API: ]
    and exits with status 1, having issued no other request and printed
    nothing. *)
Theorem login_transport_error_is_fatal :
  (forall w client serverIP username password p err,
     url_Parse w (loginURL serverIP) = None ->
     client_Do w client (requests p) (loginRequest serverIP username password) = inr err ->
     MainGo.loginToZerto w client serverIP username password p
       = Returned ("", Some err) (sent (loginRequest serverIP username password) p)
     /\ Part000.loginToZerto w client serverIP username password p
        = Returned ("", Some err) (sent (loginRequest serverIP username password) p))
  /\ (forall w args config err,
        let serverIP := flag_String (flag_server args) "localhost" in
        let login := loginRequest serverIP (Username config) (Password config) in
        config_loaded w args config ->
        url_Parse w (loginURL serverIP) = None ->
        client_Do w theClient [] login = inr err ->
        let last :=
          {| requests := [login]; stdout := "";
             stderr := ["Error logging in to Zerto API: " +:+ err] |} in
        run (MainGo.main w args) = Exited 1 last
        /\ run (Part000.main w args) = Exited 1 last).
Proof.
  split.
  - intros w client serverIP username password p err Hurl HDo.
    change Part000.loginToZerto with MainGo.loginToZerto.
    rewrite loginToZerto_run by done. cbv zeta. by rewrite HDo.
  - intros w args config err serverIP login (configFile & Hflag & Hne & Hcfg) Hurl HDo.
    cbv zeta.
    rewrite (MainGo_main_run w args configFile config Hflag Hne Hcfg).
    rewrite (Part000_main_run w args configFile config Hflag Hne Hcfg).
    fold serverIP. rewrite loginToZerto_run by done. cbv zeta.
    change (requests Proc0) with (@nil http.Request). fold login. by rewrite HDo.
Qed.

Lemma login_transport_error_is_fatal_witness :
  let w := Sample.world (inr "dial tcp: connection refused") (Sample.vpgsAnswer 200 [7]) in
  run (MainGo.main w Sample.args)
  = Exited 1
      {| requests := [loginRequest "zvm.example.org" "admin" "secret"];
         stdout := "";
         stderr := ["Error logging in to Zerto API: dial tcp: connection refused"] |}.
Proof.
  cbv zeta.
  apply (proj2 login_transport_error_is_fatal
    (Sample.world (inr "dial tcp: connection refused") (Sample.vpgsAnswer 200 [7]))
    Sample.args Sample.config "dial tcp: connection refused").
  - exists "zerto.json". split; [reflexivity|]. split; [discriminate|reflexivity].
  - reflexivity.
  - reflexivity.
Defined.

(** ** Failures of the query *)

(** X9: a transport error of the GET, or an error while reading the body,
    is returned by [queryVPGs] unchanged (only a decoding error gets the
    prefix [error unmarshalling JSON: ]), with 0 as the number in
    part_000, and nothing is printed even if the bytes read so far would
    decode; [main] logs the error after [Error querying VPGs: ] and exits
    with status 1. *)
Theorem query_errors_pass_through :
  (forall w client serverIP sessionToken p err,
     url_Parse w (vpgsURL serverIP) = None ->
     client_Do w client (requests p) (vpgsRequest serverIP sessionToken) = inr err ->
     MainGo.queryVPGs w client serverIP sessionToken p
       = Returned (Some err) (sent (vpgsRequest serverIP sessionToken) p)
     /\ Part000.queryVPGs w client serverIP sessionToken p
        = Returned (0, Some err) (sent (vpgsRequest serverIP sessionToken) p))
  /\ (forall w client serverIP sessionToken p resp data err,
        query_answered w client serverIP sessionToken p resp ->
        http.Body resp = (data, Some err) ->
        MainGo.queryVPGs w client serverIP sessionToken p
          = Returned (Some err) (sent (vpgsRequest serverIP sessionToken) p)
        /\ Part000.queryVPGs w client serverIP sessionToken p
           = Returned (0, Some err) (sent (vpgsRequest serverIP sessionToken) p))
  /\ (forall w args config sessionToken p1 err,
        let serverIP := flag_String (flag_server args) "localhost" in
        config_loaded w args config ->
        MainGo.loginToZerto w theClient serverIP (Username config) (Password config) Proc0
          = Returned (sessionToken, None) p1 ->
        MainGo.queryVPGs w theClient serverIP sessionToken p1
          = Returned (Some err) (sent (vpgsRequest serverIP sessionToken) p1) ->
        Part000.queryVPGs w theClient serverIP sessionToken p1
          = Returned (0, Some err) (sent (vpgsRequest serverIP sessionToken) p1) ->
        let last :=
          logged ("Error querying VPGs: " +:+ err)
            (sent (vpgsRequest serverIP sessionToken) p1) in
        run (MainGo.main w args) = Exited 1 last
        /\ run (Part000.main w args) = Exited 1 last
        /\ stdout last = stdout p1).
Proof.
  split; [|split].
  - intros w client serverIP sessionToken p err Hurl HDo.
    rewrite MainGo_queryVPGs_run, Part000_queryVPGs_run by done. cbv zeta.
    by rewrite HDo.
  - intros w client serverIP sessionToken p resp data err [Hurl HDo] Hbody.
    rewrite MainGo_queryVPGs_run, Part000_queryVPGs_run by done. cbv zeta.
    by rewrite HDo, Hbody.
  - intros w args config sessionToken p1 err serverIP (configFile & Hflag & Hne & Hcfg)
      Hlogin HM HP. cbv zeta.
    rewrite (MainGo_main_run w args configFile config Hflag Hne Hcfg).
    rewrite (Part000_main_run w args configFile config Hflag Hne Hcfg).
    fold serverIP. by rewrite Hlogin, HM, HP.
Qed.

Lemma query_errors_pass_through_witness :
  let truncated : http.Response + error :=
    inl {| http.StatusCode := 200; http.RespHeader := ∅;
           http.Body := (Sample.vpgsBody [5; 15], Some "unexpected EOF") |} in
  let w := Sample.world truncated truncated in
  MainGo.queryVPGs w theClient "zvm" "t0k3n" Proc0
    = Returned (Some "unexpected EOF") (sent (vpgsRequest "zvm" "t0k3n") Proc0)
  /\ Part000.queryVPGs w theClient "zvm" "t0k3n" Proc0
     = Returned (0, Some "unexpected EOF") (sent (vpgsRequest "zvm" "t0k3n") Proc0).
Proof.
  cbv zeta.
  apply (proj1 (proj2 query_errors_pass_through)
    (Sample.world
       (inl {| http.StatusCode := 200; http.RespHeader := ∅;
               http.Body := (Sample.vpgsBody [5; 15], Some "unexpected EOF") |})
       (inl {| http.StatusCode := 200; http.RespHeader := ∅;
               http.Body := (Sample.vpgsBody [5; 15], Some "unexpected EOF") |}))
    theClient "zvm" "t0k3n" Proc0
    {| http.StatusCode := 200; http.RespHeader := ∅;
       http.Body := (Sample.vpgsBody [5; 15], Some "unexpected EOF") |}
    (Sample.vpgsBody [5; 15]) "unexpected EOF").
  - split; reflexivity.
  - reflexivity.
Defined.

(** X10: in part_000 the number that [queryVPGs] returns is always an
    [int], it is 0 whenever an error is returned, and [queryVPGs] itself
    prints and logs nothing; in main.go [queryVPGs] prints nothing when it
    returns an error. *)
Theorem queryVPGs_zero_on_error w client serverIP sessionToken p :
  (forall n err p',
     Part000.queryVPGs w client serverIP sessionToken p = Returned (n, err) p' ->
     is_int n /\ (err <> None -> n = 0)
     /\ stdout p' = stdout p /\ stderr p' = stderr p)
  /\ (forall err p',
        MainGo.queryVPGs w client serverIP sessionToken p = Returned (Some err) p' ->
        stdout p' = stdout p /\ stderr p' = stderr p).
Proof.
  assert (H0 : is_int 0) by (unfold is_int, minInt, maxInt, intSize; lia).
  destruct (url_Parse w (vpgsURL serverIP)) as [e|] eqn:Hurl.
  { destruct (queryVPGs_bad_url w client serverIP sessionToken p e Hurl) as [-> ->].
    split; intros; done. }
  rewrite MainGo_queryVPGs_run, Part000_queryVPGs_run by done. cbv zeta.
  destruct (client_Do w client (requests p) _) as [resp|e].
  2:{ split; [intros n err p' [= <- <- <-]|intros err p' [= <- <-]]; done. }
  destruct (http.Body resp) as [body [e|]].
  { split; [intros n err p' [= <- <- <-]|intros err p' [= <- <-]]; done. }
  destruct (json_Unmarshal_VPGs w body) as [vpgs [e|]].
  { split; [intros n err p' [= <- <- <-]|intros err p' [= <- <-]]; done. }
  destruct vpgs as [|vpg rest]; (split; [intros n err p' [= <- <- <-]|intros err p' H; done]).
  - done.
  - split; [|done].
    apply quot_is_int; [apply (range_add_is_int (vpg :: rest)) | by apply (len_pos (vpg :: rest))].
Qed.

Lemma queryVPGs_zero_on_error_witness :
  let w := Sample.world (inr "timeout") (inr "timeout") in
  is_int 0 /\ (Some "timeout" <> @None error -> 0 = 0).
Proof.
  cbv zeta.
  destruct (proj1 (queryVPGs_zero_on_error
    (Sample.world (inr "timeout") (inr "timeout")) theClient "zvm" "t0k3n" Proc0)
    0 (Some "timeout") (sent (vpgsRequest "zvm" "t0k3n") Proc0)) as (H1 & H2 & _).
  - vm_compute. reflexivity.
  - split; [exact H1 | exact H2].
Defined.

(** ** The arithmetic of the average *)

Lemma sumRPO_bounds vpgs lo hi :
  (forall vpg, vpg ∈ vpgs -> lo <= ActualRPO vpg <= hi) ->
  len vpgs * lo <= sumRPO vpgs <= len vpgs * hi.
Proof.
  induction vpgs as [|vpg rest IH]; intros Hall; unfold len in *; simpl length; simpl sumRPO.
  - lia.
  - pose proof (Hall vpg ltac:(left)) as Hv.
    assert (IH' := IH (fun v Hin => Hall v ltac:(by right))). lia.
Qed.

Lemma quot_between s n lo hi :
  0 < n -> n * lo <= s <= n * hi -> lo <= Z.quot s n <= hi.
Proof.
  intros Hn Hs. pose proof (Z.quot_rem' s n) as E.
  destruct (Z.le_gt_cases 0 s) as [H0|H0].
  - pose proof (Z.rem_bound_pos s n H0 Hn). nia.
  - pose proof (Z.rem_bound_pos (- s) n ltac:(lia) Hn) as Hr.
    rewrite Z.rem_opp_l in Hr by lia. nia.
Qed.

(** X11: when the exact sum fits an [int], the average that [queryVPGs]
    outputs lies between the smallest and the largest [ActualRPO] of the
    records: if every record is within [lo, hi], so is the output.  In
    particular records that all carry the same value give that value. *)
Theorem queryVPGs_average_within_range
    w client serverIP sessionToken p resp vpgs lo hi :
  query_answered w client serverIP sessionToken p resp ->
  decodes_to w resp vpgs ->
  vpgs <> [] ->
  is_int (sumRPO vpgs) ->
  (forall vpg, vpg ∈ vpgs -> lo <= ActualRPO vpg <= hi) ->
  exists average,
    lo <= average <= hi
    /\ MainGo.queryVPGs w client serverIP sessionToken p
       = Returned None (printed (fmt_d average) (sent (vpgsRequest serverIP sessionToken) p))
    /\ Part000.queryVPGs w client serverIP sessionToken p
       = Returned (average, None) (sent (vpgsRequest serverIP sessionToken) p).
Proof.
  intros Hq Hd Hne Hfit Hall. exists (averageRPO vpgs).
  destruct (queryVPGs_decoded _ _ _ _ _ _ _ Hq Hd) as [-> ->].
  split; [|by apply aggregate_nonempty].
  unfold averageRPO. rewrite (range_add_exact vpgs Hfit).
  apply quot_between; [by apply len_pos|].
  pose proof (sumRPO_bounds vpgs lo hi Hall). lia.
Qed.

Lemma queryVPGs_average_within_range_witness :
  let answer := Sample.vpgsAnswer 200 [-5; -10] in
  let w := Sample.world answer answer in
  exists average,
    -10 <= average <= -5
    /\ MainGo.queryVPGs w theClient "zvm" "t0k3n" Proc0
       = Returned None (printed (fmt_d average) (sent (vpgsRequest "zvm" "t0k3n") Proc0))
    /\ Part000.queryVPGs w theClient "zvm" "t0k3n" Proc0
       = Returned (average, None) (sent (vpgsRequest "zvm" "t0k3n") Proc0).
Proof.
  cbv zeta.
  apply (queryVPGs_average_within_range
    (Sample.world (Sample.vpgsAnswer 200 [-5; -10]) (Sample.vpgsAnswer 200 [-5; -10]))
    theClient "zvm" "t0k3n" Proc0
    {| http.StatusCode := 200; http.RespHeader := ∅;
       http.Body := (Sample.vpgsBody [-5; -10], None) |}
    (Sample.vpgsOf [-5; -10]) (-10) (-5)).
  - split; reflexivity.
  - exists (Sample.vpgsBody [-5; -10]). split; [reflexivity|]. vm_compute. reflexivity.
  - discriminate.
  - vm_compute. split; discriminate.
  - intros vpg Hin. apply list_elem_of_In in Hin. simpl in Hin.
    destruct Hin as [<-|[<-|[]]]; simpl; lia.
Defined.

Lemma quot_error s n :
  0 < n -> Z.abs (s - Z.quot s n * n) < n /\ 0 <= Z.quot s n * s.
Proof.
  intros Hn. pose proof (Z.quot_rem' s n) as E.
  destruct (Z.le_gt_cases 0 s) as [H0|H0].
  - pose proof (Z.rem_bound_pos s n H0 Hn).
    pose proof (quot_bounds_pos s n Hn H0). split; [lia | nia].
  - pose proof (Z.rem_bound_pos (- s) n ltac:(lia) Hn) as Hr.
    rewrite Z.rem_opp_l in Hr by lia.
    pose proof (quot_bounds_neg s n Hn ltac:(lia)). split; [lia | nia].
Qed.

(** X12: when the exact sum fits an [int], the average that [queryVPGs]
    outputs misses the arithmetic mean by less than one, on the side of
    zero: the sum and the output times the number of records differ by less
    than the number of records, and the output never has the sign opposite
    to the sum's. *)
Theorem queryVPGs_average_error_below_one
    w client serverIP sessionToken p resp vpgs :
  query_answered w client serverIP sessionToken p resp ->
  decodes_to w resp vpgs ->
  vpgs <> [] ->
  is_int (sumRPO vpgs) ->
  exists average,
    Z.abs (sumRPO vpgs - average * len vpgs) < len vpgs
    /\ 0 <= average * sumRPO vpgs
    /\ Z.abs average <= Z.abs (sumRPO vpgs)
    /\ MainGo.queryVPGs w client serverIP sessionToken p
       = Returned None (printed (fmt_d average) (sent (vpgsRequest serverIP sessionToken) p))
    /\ Part000.queryVPGs w client serverIP sessionToken p
       = Returned (average, None) (sent (vpgsRequest serverIP sessionToken) p).
Proof.
  intros Hq Hd Hne Hfit. exists (averageRPO vpgs).
  destruct (queryVPGs_decoded _ _ _ _ _ _ _ Hq Hd) as [-> ->].
  pose proof (len_pos vpgs Hne) as Hlen.
  unfold averageRPO at 1 2 3. rewrite (range_add_exact vpgs Hfit).
  destruct (quot_error (sumRPO vpgs) (len vpgs) Hlen) as [Herr Hsign].
  split; [done|]. split; [done|]. split; [|by apply aggregate_nonempty].
  destruct (Z.le_gt_cases 0 (sumRPO vpgs)) as [H0|H0].
  - pose proof (quot_bounds_pos (sumRPO vpgs) (len vpgs) Hlen H0). lia.
  - pose proof (quot_bounds_neg (sumRPO vpgs) (len vpgs) Hlen ltac:(lia)). lia.
Qed.

Lemma queryVPGs_average_error_below_one_witness :
  let answer := Sample.vpgsAnswer 200 [5; 10] in
  let w := Sample.world answer answer in
  exists average,
    Z.abs (15 - average * 2) < 2
    /\ Part000.queryVPGs w theClient "zvm" "t0k3n" Proc0
       = Returned (average, None) (sent (vpgsRequest "zvm" "t0k3n") Proc0).
Proof.
  cbv zeta.
  destruct (queryVPGs_average_error_below_one
    (Sample.world (Sample.vpgsAnswer 200 [5; 10]) (Sample.vpgsAnswer 200 [5; 10]))
    theClient "zvm" "t0k3n" Proc0
    {| http.StatusCode := 200; http.RespHeader := ∅;
       http.Body := (Sample.vpgsBody [5; 10], None) |}
    (Sample.vpgsOf [5; 10])) as (average & H1 & _ & _ & _ & H2).
  - split; reflexivity.
  - exists (Sample.vpgsBody [5; 10]). split; [reflexivity|]. vm_compute. reflexivity.
  - discriminate.
  - vm_compute. split; discriminate.
  - exists average. split; [exact H1 | exact H2].
Defined.

Lemma sumRPO_Permutation vpgs vpgs' : vpgs ≡ₚ vpgs' -> sumRPO vpgs = sumRPO vpgs'.
Proof.
  induction 1 as [|vpg l l' _ IH|a b l|l1 l2 l3 _ IH1 _ IH2]; simpl.
  - reflexivity.
  - by rewrite IH.
  - lia.
  - by rewrite IH1.
Qed.

(** X13: the output does not depend on the order of the records, overflow
    included: if the body decodes to a non-empty list, [queryVPGs] outputs
    the average of any rearrangement of that list. *)
Theorem queryVPGs_order_independent
    w client serverIP sessionToken p resp vpgs vpgs' :
  query_answered w client serverIP sessionToken p resp ->
  decodes_to w resp vpgs ->
  vpgs <> [] ->
  vpgs ≡ₚ vpgs' ->
  let average' := Z.quot (range_add vpgs' 0) (len vpgs') in
  MainGo.queryVPGs w client serverIP sessionToken p
    = Returned None (printed (fmt_d average') (sent (vpgsRequest serverIP sessionToken) p))
  /\ Part000.queryVPGs w client serverIP sessionToken p
     = Returned (average', None) (sent (vpgsRequest serverIP sessionToken) p).
Proof.
  intros Hq Hd Hne Hperm. cbv zeta.
  destruct (queryVPGs_decoded _ _ _ _ _ _ _ Hq Hd) as [-> ->].
  assert (Hzero : is_int 0) by (unfold is_int, minInt, maxInt, intSize; lia).
  assert (Heq : averageRPO vpgs = Z.quot (range_add vpgs' 0) (len vpgs')).
  { unfold averageRPO, len. rewrite !range_add_wrap by done.
    by rewrite (sumRPO_Permutation _ _ Hperm), (Permutation_length Hperm). }
  rewrite <- Heq. by apply aggregate_nonempty.
Qed.

Lemma queryVPGs_order_independent_witness :
  let answer := Sample.vpgsAnswer 200 [maxInt; 1] in
  let w := Sample.world answer answer in
  let average' := Z.quot (range_add (Sample.vpgsOf [1; maxInt]) 0) 2 in
  Part000.queryVPGs w theClient "zvm" "t0k3n" Proc0
    = Returned (average', None) (sent (vpgsRequest "zvm" "t0k3n") Proc0).
Proof.
  cbv zeta.
  apply (queryVPGs_order_independent
    (Sample.world (Sample.vpgsAnswer 200 [maxInt; 1]) (Sample.vpgsAnswer 200 [maxInt; 1]))
    theClient "zvm" "t0k3n" Proc0
    {| http.StatusCode := 200; http.RespHeader := ∅;
       http.Body := (Sample.vpgsBody [maxInt; 1], None) |}
    (Sample.vpgsOf [maxInt; 1]) (Sample.vpgsOf [1; maxInt])).
  - split; reflexivity.
  - exists (Sample.vpgsBody [maxInt; 1]). split; [reflexivity|]. vm_compute. reflexivity.
  - discriminate.
  - apply perm_swap.
Defined.

(** ** A successful login *)

(** X14: on a 200 answer whose [X-Zerto-Session] header has a non-empty
    first value, [loginToZerto] returns exactly that value and no error;
    further values of the header, the other headers and the body of the
    answer play no part. *)
Theorem loginToZerto_returns_first_header_value
    w client serverIP username password p resp sessionToken more :
  login_answered w client serverIP username password p resp ->
  http.StatusCode resp = 200 ->
  http.RespHeader resp !! "X-Zerto-Session" = Some (sessionToken :: more) ->
  sessionToken <> "" ->
  MainGo.loginToZerto w client serverIP username password p
    = Returned (sessionToken, None) (sent (loginRequest serverIP username password) p)
  /\ Part000.loginToZerto w client serverIP username password p
     = Returned (sessionToken, None) (sent (loginRequest serverIP username password) p).
Proof.
  intros Hl Hs Hhdr Htok.
  change Part000.loginToZerto with MainGo.loginToZerto.
  rewrite (loginToZerto_ok _ _ _ _ _ _ _ Hl Hs). cbv zeta.
  unfold http.Header_Get. rewrite Hhdr.
  by destruct (String.eqb_spec sessionToken "").
Qed.

Lemma loginToZerto_returns_first_header_value_witness :
  let answer : http.Response + error :=
    inl {| http.StatusCode := 200;
           http.RespHeader := {[ "X-Zerto-Session" := ["t0k3n"; "other"] ]};
           http.Body := ("ignored", None) |} in
  let w := Sample.world answer answer in
  MainGo.loginToZerto w theClient "zvm" "admin" "secret" Proc0
    = Returned ("t0k3n", None) (sent (loginRequest "zvm" "admin" "secret") Proc0)
  /\ Part000.loginToZerto w theClient "zvm" "admin" "secret" Proc0
     = Returned ("t0k3n", None) (sent (loginRequest "zvm" "admin" "secret") Proc0).
Proof.
  cbv zeta.
  apply (loginToZerto_returns_first_header_value
    (Sample.world
       (inl {| http.StatusCode := 200;
               http.RespHeader := {[ "X-Zerto-Session" := ["t0k3n"; "other"] ]};
               http.Body := ("ignored", None) |})
       (inl {| http.StatusCode := 200;
               http.RespHeader := {[ "X-Zerto-Session" := ["t0k3n"; "other"] ]};
               http.Body := ("ignored", None) |}))
    theClient "zvm" "admin" "secret" Proc0
    {| http.StatusCode := 200;
       http.RespHeader := {[ "X-Zerto-Session" := ["t0k3n"; "other"] ]};
       http.Body := ("ignored", None) |}
    "t0k3n" ["other"]).
  - split; reflexivity.
  - reflexivity.
  - reflexivity.
  - discriminate.
Defined.

(** ** The whole process, from the command line *)

Example flag_Parse_examples :
  let none := {| flag_server := None; flag_config := None |} in
  flag_Parse ["-server"; "zvm"; "--config=zerto.json"] none
    = ParseOK {| flag_server := Some "zvm"; flag_config := Some "zerto.json" |}
  /\ flag_Parse ["-config"; "a.json"; "-config"; "b.json"] none
     = ParseOK {| flag_server := None; flag_config := Some "b.json" |}
  /\ flag_Parse ["-config"; "-h"] none
     = ParseOK {| flag_server := None; flag_config := Some "-h" |}
  /\ flag_Parse ["zerto.json"; "-h"] none = ParseOK none
  /\ flag_Parse ["--"; "-h"] none = ParseOK none
  /\ flag_Parse ["-"] none = ParseOK none
  /\ flag_Parse ["-h"] none = ParseHelp
  /\ flag_Parse ["--help=1"] none = ParseHelp
  /\ flag_Parse ["-verbose"] none = ParseFail "flag provided but not defined: -verbose"
  /\ flag_Parse ["-server"] none = ParseFail "flag needs an argument: -server"
  /\ flag_Parse ["---server"] none = ParseFail "bad flag syntax: ---server"
  /\ flag_Parse ["-=x"] none = ParseFail "bad flag syntax: -=x".
Proof. cbv zeta. repeat split. Qed.

(** A request for help ends the process with status 0 before [main] does
    anything, an undefined flag with status 2. *)
Example sample_help_and_undefined_flag :
  let w := Sample.world (Sample.loginOK "t0k3n") (Sample.vpgsAnswer 200 [7]) in
  run (main_go w "zerto-rpo" ["-h"])
    = Exited 0 {| requests := []; stdout := ""; stderr := [flag_usage "zerto-rpo"] |}
  /\ run (part_000 w "zerto-rpo" ["-config"; "zerto.json"; "-verbose"])
     = Exited 2
         {| requests := []; stdout := "";
            stderr := ["flag provided but not defined: -verbose"; flag_usage "zerto-rpo"] |}
  /\ run (main_go w "zerto-rpo" ["-config"; "zerto.json"; "-server=zvm"])
     = Returned tt
         {| requests := [loginRequest "zvm" "admin" "secret"; vpgsRequest "zvm" "t0k3n"];
            stdout := "7"; stderr := [] |}.
Proof. cbv zeta. repeat split; vm_compute; reflexivity. Qed.

(** The three ways [flag.Parse] leaves. *)
Lemma process_parsed w prog arguments args :
  flag_Parse arguments {| flag_server := None; flag_config := None |} = ParseOK args ->
  run (main_go w prog arguments) = run (MainGo.main w args)
  /\ run (part_000 w prog arguments) = run (Part000.main w args).
Proof.
  intros H. unfold run, main_go, part_000, flag_Parse_or_exit. rewrite H. by split.
Qed.

Lemma process_help w prog arguments :
  flag_Parse arguments {| flag_server := None; flag_config := None |} = ParseHelp ->
  run (main_go w prog arguments) = Exited 0 (logged (flag_usage prog) Proc0)
  /\ run (part_000 w prog arguments) = Exited 0 (logged (flag_usage prog) Proc0).
Proof.
  intros H. unfold run, main_go, part_000, flag_Parse_or_exit. rewrite H. by split.
Qed.

Lemma process_fail w prog arguments msg :
  flag_Parse arguments {| flag_server := None; flag_config := None |} = ParseFail msg ->
  run (main_go w prog arguments)
    = Exited 2 (logged (flag_usage prog) (logged msg Proc0))
  /\ run (part_000 w prog arguments)
     = Exited 2 (logged (flag_usage prog) (logged msg Proc0)).
Proof.
  intros H. unfold run, main_go, part_000, flag_Parse_or_exit. rewrite H. by split.
Qed.

(** X1: a run of either file, from any command line, ends with status 0, 1
    or 2, and whatever it prints on standard output it prints in a run that
    ends with status 0.  A run that ends with status 0 has printed
    something unless the command line asked for help, in which case
    [flag.Parse] wrote the usage to standard error and ended the process;
    a run that ends with status 1 has printed nothing and written exactly
    one message to standard error. *)
Theorem process_prints_only_on_success w prog arguments :
  let oM := run (main_go w prog arguments) in
  let oP := run (part_000 w prog arguments) in
  let parsed := flag_Parse arguments {| flag_server := None; flag_config := None |} in
  (exit_status oM = 0 \/ exit_status oM = 1 \/ exit_status oM = 2)
  /\ (exit_status oP = 0 \/ exit_status oP = 1 \/ exit_status oP = 2)
  /\ (stdout (final oM) <> "" -> exit_status oM = 0)
  /\ (stdout (final oP) <> "" -> exit_status oP = 0)
  /\ (exit_status oM = 0 -> stdout (final oM) <> "" \/ parsed = ParseHelp)
  /\ (exit_status oP = 0 -> stdout (final oP) <> "" \/ parsed = ParseHelp)
  /\ (parsed = ParseHelp ->
      oM = Exited 0 {| requests := []; stdout := ""; stderr := [flag_usage prog] |}
      /\ oP = Exited 0 {| requests := []; stdout := ""; stderr := [flag_usage prog] |})
  /\ (exit_status oM = 1 -> stdout (final oM) = "" /\ exists msg, stderr (final oM) = [msg])
  /\ (exit_status oP = 1 -> stdout (final oP) = "" /\ exists msg, stderr (final oP) = [msg]).
Proof.
  cbv zeta.
  destruct (flag_Parse arguments {| flag_server := None; flag_config := None |})
    as [args| |msg] eqn:Hparse.
  - destruct (process_parsed w prog arguments args Hparse) as [-> ->].
    destruct (main_prints_iff_success w args)
      as (HM & HP & HoutM & HoutP & HerrM & HerrP & _).
    cbv zeta in *.
    split; [done|]. split; [done|].
    split; [by apply HoutM|]. split; [by apply HoutP|].
    split; [intros H; left; by apply HoutM|]. split; [intros H; left; by apply HoutP|].
    split; [done|]. split.
    + intros H1. split; [|by apply HerrM].
      destruct (decide (stdout (final (run (MainGo.main w args))) = "")) as [|Hne];
        [done|]. apply HoutM in Hne. lia.
    + intros H1. split; [|by apply HerrP].
      destruct (decide (stdout (final (run (Part000.main w args))) = "")) as [|Hne];
        [done|]. apply HoutP in Hne. lia.
  - destruct (process_help w prog arguments Hparse) as [-> ->]. cbn.
    repeat split; auto; try done.
  - destruct (process_fail w prog arguments msg Hparse) as [-> ->]. cbn.
    repeat split; auto; try done.
Qed.

(** X3: when the server name on the command line gives URLs that
    [http.NewRequest] accepts, neither file panics, from any command line:
    no nil pointer is dereferenced and no division by zero occurs, whatever
    the file system, the decoder and the server answer.  The process then
    ends with status 2 exactly when [flag.Parse] rejects the command line,
    and otherwise with status 0 or 1. *)
Theorem process_never_panics_on_valid_urls w prog arguments :
  let parsed := flag_Parse arguments {| flag_server := None; flag_config := None |} in
  (forall args,
     parsed = ParseOK args ->
     url_Parse w (loginURL (flag_String (flag_server args) "localhost")) = None
     /\ url_Parse w (vpgsURL (flag_String (flag_server args) "localhost")) = None) ->
  (forall msg p, run (main_go w prog arguments) <> Panicked msg p)
  /\ (forall msg p, run (part_000 w prog arguments) <> Panicked msg p)
  /\ (exit_status (run (main_go w prog arguments)) = 2 <-> exists msg, parsed = ParseFail msg)
  /\ (exit_status (run (part_000 w prog arguments)) = 2
      <-> exists msg, parsed = ParseFail msg)
  /\ ((forall msg, parsed <> ParseFail msg) ->
      (exit_status (run (main_go w prog arguments)) = 0
       \/ exit_status (run (main_go w prog arguments)) = 1)
      /\ (exit_status (run (part_000 w prog arguments)) = 0
          \/ exit_status (run (part_000 w prog arguments)) = 1)).
Proof.
  cbv zeta. intros Hurls.
  destruct (flag_Parse arguments {| flag_server := None; flag_config := None |})
    as [args| |msg] eqn:Hparse.
  - destruct (process_parsed w prog arguments args Hparse) as [-> ->].
    destruct (Hurls args eq_refl) as [Hurl1 Hurl2].
    destruct (main_never_panics_on_valid_urls w args Hurl1 Hurl2)
      as (HM & HP & HnM & HnP).
    split; [done|]. split; [done|].
    split; [split; [lia | intros [? ?]; done]|].
    split; [split; [lia | intros [? ?]; done]|]. done.
  - destruct (process_help w prog arguments Hparse) as [-> ->]. cbn.
    split; [done|]. split; [done|].
    split; [split; [lia | intros [? ?]; done]|].
    split; [split; [lia | intros [? ?]; done]|]. auto.
  - destruct (process_fail w prog arguments msg Hparse) as [-> ->]. cbn.
    split; [done|]. split; [done|].
    split; [split; eauto|]. split; [split; eauto|].
    intros H. by destruct (H msg).
Qed.

Lemma process_never_panics_on_valid_urls_witness :
  let w := Sample.world (Sample.loginOK "t0k3n") (Sample.vpgsAnswer 200 [7]) in
  exit_status
    (run (main_go w "zerto-rpo" ["-server"; "zvm.example.org"; "-config"; "zerto.json"])) = 0
  \/ exit_status
       (run (main_go w "zerto-rpo" ["-server"; "zvm.example.org"; "-config"; "zerto.json"]))
     = 1.
Proof.
  cbv zeta.
  destruct (process_never_panics_on_valid_urls
    (Sample.world (Sample.loginOK "t0k3n") (Sample.vpgsAnswer 200 [7]))
    "zerto-rpo" ["-server"; "zvm.example.org"; "-config"; "zerto.json"])
    as (_ & _ & _ & _ & H).
  - cbv zeta. intros args [= <-]. split; reflexivity.
  - destruct H as [H _]; [intros msg; discriminate | exact H].
Defined.

Lemma process_prints_only_on_success_witness :
  let w := Sample.world (Sample.loginOK "t0k3n") (Sample.vpgsAnswer 200 [7]) in
  run (main_go w "zerto-rpo" ["--help"])
    = Exited 0 {| requests := []; stdout := ""; stderr := [flag_usage "zerto-rpo"] |}
  /\ run (part_000 w "zerto-rpo" ["--help"])
     = Exited 0 {| requests := []; stdout := ""; stderr := [flag_usage "zerto-rpo"] |}.
Proof.
  cbv zeta.
  destruct (process_prints_only_on_success
    (Sample.world (Sample.loginOK "t0k3n") (Sample.vpgsAnswer 200 [7]))
    "zerto-rpo" ["--help"]) as (_ & _ & _ & _ & _ & _ & H & _).
  apply H. reflexivity.
Defined.
